(** * tvdenoise.c: regularization-strength tuning and denoising orchestration

    A shallow embedding of [src/tvdenoise/tvdenoise.c] (P. Getreuer's TV
    denoising demo): [ComputeRmse], [LambdaTune], [Denoise],
    [ParseParams], [IsGrayscale] and [main], followed by the properties of
    the specification that concern them and by further properties of the
    code.

    The C file computes on the type [num], which [num.h] defines as
    [double] (or [float] under [NUM_SINGLE]).  [num.h] is not part of the
    sources at hand, so the arithmetic is an interface ([Num]) with two
    implementations: [Double], IEEE 754 binary64 as the default build uses
    it, and [Real], exact arithmetic on the real numbers, in which the
    algebraic properties of the specification are stated. *)

From Stdlib Require Import Floats.
From Stdlib Require Import ZArith List Bool String Ascii Lia.
From Stdlib Require Import Reals Lra.
Import ListNotations.

#[local] Set Warnings "-inexact-float".
#[local] Open Scope Z_scope.
#[local] Open Scope string_scope.
#[local] Open Scope list_scope.

(** ** The arithmetic of [num] *)

Class Num : Type := {
  num : Type;
  nadd : num -> num -> num;
  nsub : num -> num -> num;
  nmul : num -> num -> num;
  ndiv : num -> num -> num;
  nsqrt : num -> num;
  (** [x < y] and [x <= y] as C evaluates them *)
  nltb : num -> num -> bool;
  nleb : num -> num -> bool;
  (** conversion of a C integer ([int], [long]) to [num] *)
  of_int : Z -> num
}.

Declare Scope num_scope.
Delimit Scope num_scope with num.
Notation "x + y" := (nadd x y) : num_scope.
Notation "x - y" := (nsub x y) : num_scope.
Notation "x * y" := (nmul x y) : num_scope.
Notation "x / y" := (ndiv x y) : num_scope.
Notation "x <? y" := (nltb x y) : num_scope.
Notation "x <=? y" := (nleb x y) : num_scope.

(** The decimal literal [m]e[-d] of the C source, as the quotient of two
    integers: [dec 7079 4] is [0.7079].  In binary64 both integers are
    exact and the division rounds once, which gives the double nearest to
    the decimal value, as a C compiler does (see [dec_double]). *)
Definition dec {N : Num} (m : Z) (d : nat) : num :=
  (of_int m / of_int (10 ^ Z.of_nat d))%num.

(** *** IEEE 754 binary64 *)

(** [long] to [double] for [|z| < 2^63]; [of_uint63] rounds to nearest. *)
Definition float_of_Z (z : Z) : float :=
  match z with
  | Z0 => PrimFloat.of_uint63 (Uint63.of_Z 0)
  | Zpos _ => PrimFloat.of_uint63 (Uint63.of_Z z)
  | Zneg p => PrimFloat.opp (PrimFloat.of_uint63 (Uint63.of_Z (Zpos p)))
  end.

Definition Double : Num := {|
  num := float;
  nadd := PrimFloat.add;
  nsub := PrimFloat.sub;
  nmul := PrimFloat.mul;
  ndiv := PrimFloat.div;
  nsqrt := PrimFloat.sqrt;
  nltb := PrimFloat.ltb;
  nleb := PrimFloat.leb;
  of_int := float_of_Z
|}.

(** *** Exact arithmetic *)

Definition Rltb (x y : R) : bool := if Rlt_dec x y then true else false.
Definition Rleb (x y : R) : bool := if Rle_dec x y then true else false.

Definition Real : Num := {|
  num := R;
  nadd := Rplus;
  nsub := Rminus;
  nmul := Rmult;
  ndiv := Rdiv;
  nsqrt := R_sqrt.sqrt;
  nltb := Rltb;
  nleb := Rleb;
  of_int := IZR
|}.

(** What the control flow of [Denoise] and [ParseParams] relies on in the
    comparisons with zero: [x > 0] and [x <= 0] never hold together,
    [x < 0] implies [x <= 0], and the default [-1] is negative. *)
Class NumOrder (N : Num) : Prop := {
  pos_not_le0 :
    forall x : num, (of_int 0 <? x)%num = true -> (x <=? of_int 0)%num = false;
  lt0_le0 :
    forall x : num, (x <? of_int 0)%num = true -> (x <=? of_int 0)%num = true;
  neg1_lt0 : (of_int (-1) <? of_int 0)%num = true
}.

(** ** Images *)

Section Program.

Context {N : Num}.

(** [struct image]; [Data] is the planar sample buffer the pointer
    designates. *)
Record image : Type := {
  Data : list num;
  Width : Z;
  Height : Z;
  NumChannels : Z
}.

Definition set_Data (u : image) (d : list num) : image :=
  {| Data := d; Width := Width u; Height := Height u;
     NumChannels := NumChannels u |}.

(** Number of samples, [((long)Width) * ((long)Height) * NumChannels]:
    the product itself, a signed overflow being undefined in C. *)
Definition NumSamples (u : image) : Z := Width u * Height u * NumChannels u.

(** [u.Data[n]]; reading past the end of the buffer is undefined in C and
    yields zero here. *)
Definition sample (u : image) (n : nat) : num := nth n (Data u) (of_int 0).

(** ** ComputeRmse *)

(** One iteration of the loop body: [Temp = f.Data[n] - u.Data[n];
    Rmse += Temp*Temp]. *)
Definition rmse_step (f u : image) (Rmse : num) (n : nat) : num :=
  let Temp := (sample f n - sample u n)%num in
  (Rmse + Temp * Temp)%num.

Definition ComputeRmse (f u : image) : num :=
  let N_ := NumSamples u in
  let Rmse := fold_left (rmse_step f u) (seq 0 (Z.to_nat N_)) (of_int 0) in
  nsqrt (Rmse / of_int N_)%num.


(** ** Solver options ([tvregopt]) *)

(** The three noise models [tvreg] distinguishes. *)
Inductive noisemodel : Type := Gaussian | Laplace | Poisson.

(** Modelled from the spec: [tvreg.h] and [tvreg.c] (the type [tvregopt]
    and its setters) are not among the sources.  The options hold the
    current lambda, the noise model, the convergence tolerance, the
    iteration cap and whether a progress callback is installed. *)
Record tvregopt : Type := {
  OptLambda : num;
  OptNoiseModel : noisemodel;
  OptTol : num;
  OptMaxIter : Z;
  OptPlotFun : bool
}.

(** Modelled from the spec: [TvRegSetLambda] of [tvreg.c] stores the
    fidelity weight in the options and leaves the other fields alone. *)
Definition TvRegSetLambda (Opt : tvregopt) (Lambda : num) : tvregopt :=
  {| OptLambda := Lambda; OptNoiseModel := OptNoiseModel Opt;
     OptTol := OptTol Opt; OptMaxIter := OptMaxIter Opt;
     OptPlotFun := OptPlotFun Opt |}.

(** Modelled from the spec: [TvRegSetTol] of [tvreg.c] stores the
    convergence tolerance. *)
Definition TvRegSetTol (Opt : tvregopt) (Tol : num) : tvregopt :=
  {| OptLambda := OptLambda Opt; OptNoiseModel := OptNoiseModel Opt;
     OptTol := Tol; OptMaxIter := OptMaxIter Opt;
     OptPlotFun := OptPlotFun Opt |}.

(** Modelled from the spec: [TvRegSetMaxIter] of [tvreg.c] stores the
    iteration cap. *)
Definition TvRegSetMaxIter (Opt : tvregopt) (MaxIter : Z) : tvregopt :=
  {| OptLambda := OptLambda Opt; OptNoiseModel := OptNoiseModel Opt;
     OptTol := OptTol Opt; OptMaxIter := MaxIter;
     OptPlotFun := OptPlotFun Opt |}.

(** Modelled from the spec: [TvRegSetPlotFun] of [tvreg.c] installs or,
    as in the call [TvRegSetPlotFun(Opt, NULL, NULL)] of [Denoise],
    removes the progress callback. *)
Definition TvRegSetPlotFun (Opt : tvregopt) (installed : bool) : tvregopt :=
  {| OptLambda := OptLambda Opt; OptNoiseModel := OptNoiseModel Opt;
     OptTol := OptTol Opt; OptMaxIter := OptMaxIter Opt;
     OptPlotFun := installed |}.

(** Modelled from the spec: the names [tvreg.c] recognizes are exactly
    three; any other name is refused, with no default. *)
Definition model_of_name (Model : string) : option noisemodel :=
  if Model =? "gaussian" then Some Gaussian
  else if Model =? "laplace" then Some Laplace
  else if Model =? "poisson" then Some Poisson
  else None.

(** Modelled from the spec: [TvRegSetNoiseModel] of [tvreg.c] stores the
    model of a recognized name and returns 1, and returns 0 ([None])
    otherwise. *)
Definition TvRegSetNoiseModel (Opt : tvregopt) (Model : string)
  : option tvregopt :=
  match model_of_name Model with
  | Some m =>
      Some {| OptLambda := OptLambda Opt; OptNoiseModel := m;
              OptTol := OptTol Opt; OptMaxIter := OptMaxIter Opt;
              OptPlotFun := OptPlotFun Opt |}
  | None => None
  end.

(** ** What a run does to the outside world

    One constructor per [printf]/[fprintf] statement of [LambdaTune] and
    [Denoise], and one for a call of the external solver [TvRestore],
    recorded with the options it was given, the buffer [u] it started
    from, its return value and the buffer it left. *)
Inductive event : Type :=
  | OutModel (c : ascii) (rest : string)
      (** "TV regularized denoising with %c%s noise model" *)
  | OutTuning            (** "Tuning lambda..." *)
  | OutTarget (t : num)  (** "  lambda    distance (target = %.5f)" *)
  | OutRule              (** " --------------------" *)
  | OutLambda (l : num)  (** "  %-9.4f" *)
  | OutRound (d l : num) (** " %.5f\n  %-9.4f" *)
  | OutFinal (d : num)   (** " %.5f\n\n" *)
  | ErrAlloc             (** stderr: "Memory allocation failed" *)
  | ErrModel (Model : string) (** stderr: "Unrecognized noise model ..." *)
  | ErrComputation       (** stderr: "Error in computation." *)
  | Restore (Opt : tvregopt) (u0 : list num) (ok : bool) (u1 : list num).

(** [#define DISPLAY_SCALING 255] and [#define LAMBDA_TUNE_ITERATIONS 5] *)
Definition DISPLAY_SCALING : Z := 255.
Definition LAMBDA_TUNE_ITERATIONS : nat := 5.

(** [memcpy(dst, src, n * sizeof(num))] on buffers of at least [n]
    samples. *)
Definition memcpy (dst src : list num) (n : Z) : list num :=
  firstn (Z.to_nat n) src ++ skipn (Z.to_nat n) dst.

(** [toupper] in the C locale. *)
Definition toupper (c : ascii) : ascii :=
  let n := nat_of_ascii c in
  if ((97 <=? n) && (n <=? 122))%nat then ascii_of_nat (n - 32) else c.

(** [*Model] and [Model + 1] *)
Definition first_char (s : string) : ascii :=
  match s with EmptyString => zero | String c _ => c end.
Definition rest_chars (s : string) : string :=
  match s with EmptyString => EmptyString | String _ r => r end.

Section Solver.

(** The collaborators of [tvreg.c]: [TvRegNewOpt()] returns fresh options
    or fails ([None] for [NULL]); [TvRestore(u, f, width, height,
    channels, Opt)] overwrites [u] and returns success or failure. *)
Variable TvRegNewOpt : option tvregopt.
Variable TvRestore :
  list num -> list num -> Z -> Z -> Z -> tvregopt -> bool * list num.

(** ** LambdaTune *)

(** The empirical estimate of lambda, lines 178-189; [None] on the
    [else] branch (unrecognized model). *)
Definition estimate_lambda (Model : string) (Sigma : num) : option num :=
  if Model =? "gaussian" then
    Some (dec 7079 4 / Sigma + dec 2686 6 / (Sigma * Sigma))%num
  else if Model =? "laplace" then
    Some ((dec (-416) 5 * Sigma + dec 1301 6)
          / (((Sigma - dec 2042 4) * Sigma + dec 1635 5) * Sigma
             + dec 5836 7))%num
  else if Model =? "poisson" then
    Some (dec 2839 4 / Sigma + dec 1502 6 / (Sigma * Sigma))%num
  else None.

(** [if(Lambda < 1e-4) Lambda = 1e-4;], lines 191-192. *)
Definition floor_lambda (Lambda : num) : num :=
  if (Lambda <? dec 1 4)%num then dec 1 4 else Lambda.

(** The update of lambda inside the loop, lines 215-218. *)
Definition correct_lambda (Model : string) (Lambda Rmse Sigma : num) : num :=
  if Model =? "laplace" then (Lambda * nsqrt (Rmse / Sigma))%num
  else (Lambda * (Rmse / Sigma))%num.

(** What a routine leaves behind: its return value (1 is [true]), the
    options, the image [u] and what it printed or called, in order. *)
Record result : Type := {
  ret : bool;
  opt : tvregopt;
  img : image;
  out : list event
}.

(** The [for] loop of lines 201-222 with [k] iterations to go. *)
Fixpoint tune_loop (k : nat) (f : image) (Model : string) (Sigma : num)
    (Lambda : num) (Opt : tvregopt) (u : image) : result :=
  match k with
  | O => {| ret := true; opt := Opt; img := u; out := [] |}
  | S k' =>
      let '(ok, d) :=
        TvRestore (Data u) (Data f) (Width f) (Height f) (NumChannels f) Opt in
      let u' := set_Data u d in
      if negb ok then
        {| ret := false; opt := Opt; img := u';
           out := [Restore Opt (Data u) ok d; ErrComputation] |}
      else
        let Rmse := ComputeRmse f u' in
        let Lambda' := correct_lambda Model Lambda Rmse Sigma in
        let Opt' := TvRegSetLambda Opt Lambda' in
        let r := tune_loop k' f Model Sigma Lambda' Opt' u' in
        {| ret := ret r; opt := opt r; img := img r;
           out := Restore Opt (Data u) ok d
                  :: OutRound (of_int DISPLAY_SCALING * Rmse)%num Lambda'
                  :: out r |}
  end.

Definition LambdaTune (Opt : tvregopt) (u f : image) (Model : string)
    (Sigma : num) : result :=
  match estimate_lambda Model Sigma with
  | None => {| ret := false; opt := Opt; img := u; out := [ErrModel Model] |}
  | Some Lambda0 =>
      let Lambda := floor_lambda Lambda0 in
      let Opt' := TvRegSetLambda Opt Lambda in
      let r := tune_loop LAMBDA_TUNE_ITERATIONS f Model Sigma Lambda Opt' u in
      {| ret := ret r; opt := opt r; img := img r;
         out := OutTuning
                :: OutTarget (of_int DISPLAY_SCALING * Sigma)%num
                :: OutRule :: OutLambda Lambda :: out r |}
  end.

(** ** Denoise *)

(** Lines 262-265: lambda given, or tuned. *)
Definition choose_lambda (Opt : tvregopt) (u f : image) (Model : string)
    (Sigma Lambda : num) : result :=
  if (Sigma <=? of_int 0)%num then
    {| ret := true; opt := TvRegSetLambda Opt Lambda; img := u; out := [] |}
  else LambdaTune Opt u f Model Sigma.

(** Lines 267-283: the final solve and the report of the distance. *)
Definition final_denoising (Opt : tvregopt) (u f : image) (Sigma : num)
  : result :=
  let Opt1 := TvRegSetMaxIter (TvRegSetTol Opt (dec 5 4)) 100 in
  let '(ok, d) :=
    TvRestore (Data u) (Data f) (Width f) (Height f) (NumChannels f) Opt1 in
  let u' := set_Data u d in
  if negb ok then
    {| ret := false; opt := Opt1; img := u';
       out := [Restore Opt1 (Data u) ok d; ErrComputation] |}
  else
    {| ret := true; opt := Opt1; img := u';
       out := Restore Opt1 (Data u) ok d
              :: (if (of_int 0 <? Sigma)%num
                  then [OutFinal (of_int DISPLAY_SCALING * ComputeRmse f u')%num]
                  else []) |}.

(** [Denoise] returns its status, the content of [u] when it returns and
    what it printed and called. *)
Definition Denoise (u f : image) (Model : string) (Sigma Lambda : num)
  : bool * image * list event :=
  match TvRegNewOpt with
  | None => (false, u, [ErrAlloc])
  | Some Opt0 =>
      match TvRegSetNoiseModel Opt0 Model with
      | None => (false, u, [ErrModel Model])
      | Some Opt1 =>
          let banner := OutModel (toupper (first_char Model)) (rest_chars Model) in
          (* Set initial guess as u = f *)
          let u1 := set_Data u (memcpy (Data u) (Data f) (NumSamples f)) in
          let Opt2 :=
            TvRegSetMaxIter
              (TvRegSetTol (TvRegSetPlotFun Opt1 false) (dec 1 2)) 40 in
          let r := choose_lambda Opt2 u1 f Model Sigma Lambda in
          if negb (ret r) then (false, img r, banner :: out r)
          else
            let r' := final_denoising (opt r) (img r) f Sigma in
            (ret r', img r', banner :: out r ++ out r')
      end
  end.

End Solver.

(** ** ParseParams *)

(** [struct programparams]; a [char *] that may be [NULL] is an option. *)
Record programparams : Type := {
  InputFile : option string;
  OutputFile : option string;
  JpegQuality : Z;
  Model : string;
  Sigma : num;
  Lambda : num
}.

(** The messages [ParseParams] hands to [ErrorMessage]. *)
Inductive parse_error : Type :=
  | InvalidFormat        (** "Invalid parameter format." *)
  | SigmaNotPositive     (** "sigma must be positive." *)
  | LambdaNotPositive    (** "lambda must be positive." *)
  | JpegQualityRange     (** "JPEG quality must be between 0 and 100." *)
  | UnknownOptionChar (c : ascii)  (** "Unknown option -%c." *)
  | UnknownOption        (** "Unknown option." *)
  | NeitherSigmaNorLambda.
      (** "Either sigma or lambda must be specified." *)

(** [Parsed p]: return 1 with [*Param = p]; [Help]: [PrintHelpMessage()]
    and return 0; [Rejected e]: [ErrorMessage(e)] and return 0. *)
Inductive parsed : Type :=
  | Parsed (p : programparams)
  | Help
  | Rejected (e : parse_error).

Definition parse_status (r : parsed) : Z :=
  match r with Parsed _ => 1 | _ => 0 end.

(** [s[n]] for a C string: the terminating NUL at its length. *)
Definition char_at (s : string) (n : nat) : ascii :=
  match String.get n s with Some c => c | None => zero end.

(** [strchr(s, c)]: [Some (before, after)] around the first occurrence of
    [c], [None] for [NULL]. *)
Fixpoint strchr (s : string) (c : ascii) : option (string * string) :=
  match s with
  | EmptyString => None
  | String a r =>
      if Ascii.eqb a c then Some (EmptyString, r)
      else match strchr r c with
           | Some (b, t) => Some (String a b, t)
           | None => None
           end
  end.

(** [isprint] in the C locale. *)
Definition isprint (c : ascii) : bool :=
  let n := nat_of_ascii c in ((32 <=? n) && (n <=? 126))%nat.

Section CommandLine.

(** [atof] and [atoi] of the C library, and whether [LIBJPEG_SUPPORT] is
    defined. *)
Variable atof : string -> num.
Variable atoi : string -> Z.
Variable LIBJPEG_SUPPORT : bool.

Definition set_Model_Sigma (P : programparams) (m : string) (sg : num) :=
  {| InputFile := InputFile P; OutputFile := OutputFile P;
     JpegQuality := JpegQuality P; Model := m; Sigma := sg;
     Lambda := Lambda P |}.

Definition set_Lambda (P : programparams) (l : num) :=
  {| InputFile := InputFile P; OutputFile := OutputFile P;
     JpegQuality := JpegQuality P; Model := Model P; Sigma := Sigma P;
     Lambda := l |}.

Definition set_JpegQuality (P : programparams) (q : Z) :=
  {| InputFile := InputFile P; OutputFile := OutputFile P;
     JpegQuality := q; Model := Model P; Sigma := Sigma P;
     Lambda := Lambda P |}.

Definition set_file (P : programparams) (a : string) :=
  match InputFile P with
  | None =>
      {| InputFile := Some a; OutputFile := OutputFile P;
         JpegQuality := JpegQuality P; Model := Model P; Sigma := Sigma P;
         Lambda := Lambda P |}
  | Some _ =>
      {| InputFile := InputFile P; OutputFile := Some a;
         JpegQuality := JpegQuality P; Model := Model P; Sigma := Sigma P;
         Lambda := Lambda P |}
  end.

(** The [switch(OptionChar)] of lines 360-409; [Parsed] means [break]. *)
Definition parse_option (OptionChar : ascii) (OptionString : string)
    (P : programparams) : parsed :=
  if Ascii.eqb OptionChar "n" then
    match strchr OptionString ":" with
    | Some (name, after) =>
        let sg := (atof after / of_int DISPLAY_SCALING)%num in
        if (sg <=? of_int 0)%num then Rejected SigmaNotPositive
        else Parsed (set_Model_Sigma P name sg)
    | None => Parsed (set_Model_Sigma P OptionString (Sigma P))
    end
  else if Ascii.eqb OptionChar "l" then
    let l := atof OptionString in
    if (l <=? of_int 0)%num then Rejected LambdaNotPositive
    else Parsed (set_Lambda P l)
  else if LIBJPEG_SUPPORT && Ascii.eqb OptionChar "q" then
    let q := atoi OptionString in
    if ((q <=? 0) || (100 <? q))%Z then Rejected JpegQualityRange
    else Parsed (set_JpegQuality P q)
  else if Ascii.eqb OptionChar "-" then Help
  else if isprint OptionChar then Rejected (UnknownOptionChar OptionChar)
  else Rejected UnknownOption.

(** The loop of lines 340-422 over [argv[i..argc-1]]. *)
Fixpoint parse_args (args : list string) (P : programparams) : parsed :=
  match args with
  | [] => Parsed P
  | a :: rest =>
      if Ascii.eqb (char_at a 0) "-" then
        let OptionChar := char_at a 1 in
        if Ascii.eqb OptionChar zero then Rejected InvalidFormat
        else if negb (Ascii.eqb (char_at a 2) zero) then
          match parse_option OptionChar (substring 2 (String.length a - 2) a) P with
          | Parsed P' => parse_args rest P'
          | stop => stop
          end
        else
          match rest with
          | OptionString :: rest' =>
              match parse_option OptionChar OptionString P with
              | Parsed P' => parse_args rest' P'
              | stop => stop
              end
          | [] => Rejected InvalidFormat
          end
      else parse_args rest (set_file P a)
  end.

(** Parameter defaults, lines 333-338. *)
Definition default_params : programparams :=
  {| InputFile := None; OutputFile := None; JpegQuality := 95;
     Model := "gaussian"; Sigma := of_int (-1); Lambda := of_int (-1) |}.

(** [argv] holds the [argc] arguments, the program name first. *)
Definition ParseParams (argv : list string) : parsed :=
  match argv with
  | [] | [_] => Help
  | _ :: args =>
      match parse_args args default_params with
      | Parsed P =>
          match InputFile P with
          | None => Help
          | Some _ =>
              if (Sigma P <? of_int 0)%num && (Lambda P <? of_int 0)%num
              then Rejected NeitherSigmaNorLambda
              else Parsed P
          end
      | stop => stop
      end
  end.

End CommandLine.

End Program.

(** * The rest of the program: IsGrayscale and main *)

(** ** IsGrayscale *)

(** [x != y] on [num], as C evaluates it. *)
Class NumNe (N : Num) : Type := {
  nneb : num -> num -> bool
}.

Definition Double_ne : NumNe Double :=
  @Build_NumNe Double (fun x y : float => negb (PrimFloat.eqb x y)).


Section Grayscale.

Context {N : Num} {E : NumNe N}.

(** [NumPixels = ((long)f.Width) * ((long)f.Height)] and the three planes
    [Red = f.Data], [Green = f.Data + NumPixels],
    [Blue = f.Data + 2*NumPixels]. *)
Definition NumPixels (f : image) : Z := Width f * Height f.
Definition Red (f : image) (n : nat) : num := sample f n.
Definition Green (f : image) (n : nat) : num :=
  sample f (Z.to_nat (NumPixels f) + n).
Definition Blue (f : image) (n : nat) : num :=
  sample f (2 * Z.to_nat (NumPixels f) + n).

(** The loop of lines 312-314 over the indices [ns] still to visit: the
    first pixel whose channels differ ends it with 0. *)
Fixpoint gray_loop (f : image) (ns : list nat) : bool :=
  match ns with
  | [] => true
  | n :: ns' =>
      if nneb (Red f n) (Green f n) || nneb (Red f n) (Blue f n)
      then false
      else gray_loop f ns'
  end.

Definition IsGrayscale (f : image) : bool :=
  gray_loop f (seq 0 (Z.to_nat (NumPixels f))).

End Grayscale.

(** ** main *)

(** [#define JPEGQUALITY 95] *)
Definition JPEGQUALITY : Z := 95.

(** The two buffers [main] owns: [f.Data], which [ReadImage] allocates,
    and [u.Data], which [main] allocates itself. *)
Inductive buffer : Type := BufF | BufU.

Section Main.

Context {N : Num} {E : NumNe N}.

(** What [main] does to the outside world, besides what [Denoise]
    does. *)
Inductive action : Type :=
  | ActHelp                       (** [PrintHelpMessage()] *)
  | ActError (e : parse_error)    (** [ErrorMessage(...)] *)
  | ActRead (file : option string) (ok : bool)
  | ActMalloc (samples : Z) (ok : bool)
  | ActDenoise (e : event)
  | ActWrite (data : list num) (width height : Z) (file : option string)
             (grayscale : bool) (quality : Z) (ok : bool)
  | ActFree (b : buffer).

(** The C library and the collaborators of [main]: [ReadImage] returns
    the samples of three planes with the width and the height, or [NULL];
    [Malloc], asked for a number of samples, returns a buffer with
    whatever content, or [NULL]; [WriteImage] gets the samples, the
    width, the height, the file name, whether the format is
    [IMAGEIO_GRAYSCALE] rather than [IMAGEIO_RGB], and the JPEG quality,
    and returns success or failure. *)
Variable TvRegNewOpt : option tvregopt.
Variable TvRestore :
  list num -> list num -> Z -> Z -> Z -> tvregopt -> bool * list num.
Variable atof : string -> num.
Variable atoi : string -> Z.
Variable LIBJPEG_SUPPORT : bool.
Variable ReadImage : option string -> option (list num * Z * Z).
Variable Malloc : Z -> option (list num).
Variable WriteImage :
  list num -> Z -> Z -> option string -> bool -> Z -> bool.

(** What [ParseParams] prints when it returns 0. *)
Definition parse_message (r : parsed) : list action :=
  match r with
  | Parsed _ => []
  | Help => [ActHelp]
  | Rejected e => [ActError e]
  end.

(** Lines 123-152, after the command line was read into [Param]: the
    exit status and what was done, in order. *)
Definition run (Param : programparams) : Z * list action :=
  match ReadImage (InputFile Param) with
  | None => (1, [ActRead (InputFile Param) false])
  | Some (data, width, height) =>
      let f0 := {| Data := data; Width := width; Height := height;
                   NumChannels := 0 |} in
      let f := {| Data := data; Width := width; Height := height;
                  NumChannels := if IsGrayscale f0 then 1 else 3 |} in
      let samples := Width f * Height f * NumChannels f in
      match Malloc samples with
      | None =>
          (1, [ActRead (InputFile Param) true; ActMalloc samples false;
               ActFree BufF])
      | Some fresh =>
          let u := set_Data f fresh in
          let '(ok, u', evs) :=
            Denoise TvRegNewOpt TvRestore u f (Model Param) (Sigma Param)
              (Lambda Param) in
          let done :=
            ActRead (InputFile Param) true :: ActMalloc samples true
            :: map ActDenoise evs in
          if negb ok then (1, done ++ [ActFree BufU; ActFree BufF])
          else
            let gray := (NumChannels u =? 1)%Z in
            let written :=
              WriteImage (Data u') (Width u) (Height u) (OutputFile Param)
                gray JPEGQUALITY in
            (if written then 0 else 1,
             done ++ [ActWrite (Data u') (Width u) (Height u)
                        (OutputFile Param) gray JPEGQUALITY written;
                      ActFree BufU; ActFree BufF])
      end
  end.

Definition main (argv : list string) : Z * list action :=
  match ParseParams atof atoi LIBJPEG_SUPPORT argv with
  | Parsed Param => run Param
  | stop => (0, parse_message stop)
  end.

End Main.

(** * Properties *)

(** ** The order laws hold in both arithmetics *)

Lemma Rltb_true (x y : R) : Rltb x y = true <-> (x < y)%R.
Proof. unfold Rltb. destruct (Rlt_dec x y); split; intros; auto; discriminate. Qed.


Lemma Rleb_true (x y : R) : Rleb x y = true <-> (x <= y)%R.
Proof. unfold Rleb. destruct (Rle_dec x y); split; intros; auto; discriminate. Qed.

Lemma Rleb_false (x y : R) : Rleb x y = false <-> (y < x)%R.
Proof.
  unfold Rleb. destruct (Rle_dec x y); split; intros; auto; try discriminate; lra.
Qed.

#[export] Instance Real_order : NumOrder Real.
Proof.
  constructor; simpl.
  - intros x H. apply Rltb_true in H. apply Rleb_false. exact H.
  - intros x H. apply Rltb_true in H. apply Rleb_true. lra.
  - apply Rltb_true. lra.
Qed.

Lemma Double_zero : Prim2SF (float_of_Z 0) = S754_zero false.
Proof. vm_compute. reflexivity. Qed.

#[export] Instance Double_order : NumOrder Double.
Proof.
  constructor.
  - intros x.
    change (PrimFloat.ltb (float_of_Z 0) x = true ->
            PrimFloat.leb x (float_of_Z 0) = false).
    rewrite ltb_spec, leb_spec, Double_zero.
    destruct (Prim2SF x) as [s|s| |s m e]; try destruct s;
      unfold SFltb, SFleb; simpl; intros; congruence.
  - intros x.
    change (PrimFloat.ltb x (float_of_Z 0) = true ->
            PrimFloat.leb x (float_of_Z 0) = true).
    rewrite ltb_spec, leb_spec, Double_zero.
    destruct (Prim2SF x) as [s|s| |s m e]; try destruct s;
      unfold SFltb, SFleb; simpl; intros; congruence.
  - vm_compute. reflexivity.
Qed.

(** The literals of the source, read in binary64, are the doubles a C
    compiler produces for them. *)
Lemma dec_double :
  map (fun md => @dec Double (fst md) (snd md))
      [(7079, 4%nat); (2686, 6%nat); (-416, 5%nat); (1301, 6%nat);
       (2042, 4%nat); (1635, 5%nat); (5836, 7%nat); (2839, 4%nat);
       (1502, 6%nat); (1, 4%nat); (1, 2%nat); (5, 4%nat)]
  = [0.7079; 0.002686; -0.00416; 0.001301; 0.2042; 0.01635; 5.836e-4;
     0.2839; 0.001502; 1e-4; 1e-2; 5e-4]%float.
Proof. vm_compute. reflexivity. Qed.

(** In exact arithmetic they are the decimal numbers themselves. *)
Lemma dec_real (m : Z) (d : nat) :
  @dec Real m d = (IZR m / IZR (10 ^ Z.of_nat d))%R.
Proof. reflexivity. Qed.

(** ** Model names *)

Definition name_of (m : noisemodel) : string :=
  match m with
  | Gaussian => "gaussian"
  | Laplace => "laplace"
  | Poisson => "poisson"
  end.

Lemma model_of_name_of (m : noisemodel) : model_of_name (name_of m) = Some m.
Proof. destruct m; reflexivity. Qed.

Lemma model_of_name_Some (s : string) (m : noisemodel) :
  model_of_name s = Some m -> s = name_of m.
Proof.
  unfold model_of_name.
  destruct (String.eqb_spec s "gaussian"); [intros [= <-]; auto|].
  destruct (String.eqb_spec s "laplace"); [intros [= <-]; auto|].
  destruct (String.eqb_spec s "poisson"); [intros [= <-]; auto|].
  discriminate.
Qed.

Lemma model_of_name_None (s : string) :
  s <> "gaussian" -> s <> "laplace" -> s <> "poisson" ->
  model_of_name s = None.
Proof.
  intros Hg Hl Hp. unfold model_of_name.
  destruct (String.eqb_spec s "gaussian"); [contradiction|].
  destruct (String.eqb_spec s "laplace"); [contradiction|].
  destruct (String.eqb_spec s "poisson"); [contradiction|].
  reflexivity.
Qed.

(** ** Solver calls of a run *)

Section Traces.

Context {N : Num}.

(** A call of [TvRestore] as recorded by [Restore]. *)
Record call : Type := {
  call_opt : tvregopt;
  call_u0 : list num;
  call_ok : bool;
  call_u1 : list num
}.

Definition event_of_call (c : call) : event :=
  Restore (call_opt c) (call_u0 c) (call_ok c) (call_u1 c).

Fixpoint calls (tr : list event) : list call :=
  match tr with
  | [] => []
  | Restore o a k b :: tr' =>
      {| call_opt := o; call_u0 := a; call_ok := k; call_u1 := b |}
      :: calls tr'
  | _ :: tr' => calls tr'
  end.

Lemma calls_app (tr1 tr2 : list event) :
  calls (tr1 ++ tr2) = calls tr1 ++ calls tr2.
Proof.
  induction tr1 as [|e tr1 IH]; simpl; auto.
  destruct e; simpl; auto. now rewrite IH.
Qed.

End Traces.

(** ** The correction rule and the tuning rounds, as the specification
    words them *)

Section Tuning.

Context {N : Num}.

(** [CorrectLambda] of the specification: laplace scales lambda by the
    square root of the residual ratio, gaussian and poisson by the ratio
    itself. *)
Definition CorrectLambda (m : noisemodel) (lambda rmse sigma : num) : num :=
  match m with
  | Laplace => (lambda * nsqrt (rmse / sigma))%num
  | Gaussian | Poisson => (lambda * (rmse / sigma))%num
  end.

(** The residual after a solver call that left [d] in the buffer of [u]. *)
Definition residual (f u : image) (d : list num) : num :=
  ComputeRmse f (set_Data u d).

(** A sequence of solver calls follows the tuning recurrence from
    [lambda] and the buffer [u0]: the first call runs with [lambda] on
    [u0], and the calls after it follow the recurrence from the corrected
    lambda and the buffer the first call left. *)
Fixpoint tuned_from (m : noisemodel) (sigma : num) (f u : image)
    (lambda : num) (u0 : list num) (cs : list call) : Prop :=
  match cs with
  | [] => True
  | c :: cs' =>
      OptLambda (call_opt c) = lambda /\ call_u0 c = u0 /\
      tuned_from m sigma f u
        (CorrectLambda m lambda (residual f u (call_u1 c)) sigma)
        (call_u1 c) cs'
  end.

(** What one completed round prints and calls: the solver on the current
    options, then the distance and the corrected lambda. *)
Definition round_events (m : noisemodel) (sigma : num) (f u : image)
    (c : call) : list event :=
  [ event_of_call c;
    OutRound (of_int DISPLAY_SCALING * residual f u (call_u1 c))%num
             (CorrectLambda m (OptLambda (call_opt c))
                (residual f u (call_u1 c)) sigma) ].

Lemma correct_lambda_name (m : noisemodel) (l r s : num) :
  correct_lambda (name_of m) l r s = CorrectLambda m l r s.
Proof. destruct m; reflexivity. Qed.

Lemma tuned_from_set_Data m sigma f u d lambda u0 cs :
  tuned_from m sigma f (set_Data u d) lambda u0 cs
  <-> tuned_from m sigma f u lambda u0 cs.
Proof.
  revert lambda u0. induction cs as [|c cs IH]; intros lambda u0; simpl.
  - tauto.
  - rewrite IH. reflexivity.
Qed.

Section Loop.

Variable TvRestore :
  list num -> list num -> Z -> Z -> Z -> tvregopt -> bool * list num.
Variables (m : noisemodel) (sigma : num) (f : image).

Let loop (k : nat) (lambda : num) (Opt : tvregopt) (u : image) : result :=
  tune_loop TvRestore k f (name_of m) sigma lambda Opt u.

(** Whatever the solver does, the calls of the loop follow the
    recurrence, and so does whatever follows the loop from the state it
    leaves. *)
Lemma tune_loop_tuned (k : nat) :
  forall (lambda : num) (Opt : tvregopt) (u : image) (rest : list call),
    OptLambda Opt = lambda ->
    (ret (loop k lambda Opt u) = false -> rest = []) ->
    tuned_from m sigma f u (OptLambda (opt (loop k lambda Opt u)))
      (Data (img (loop k lambda Opt u))) rest ->
    tuned_from m sigma f u lambda (Data u)
      (calls (out (loop k lambda Opt u)) ++ rest).
Proof.
  unfold loop. induction k as [|k IH]; intros lambda Opt u rest HO Hfail Hrest.
  - simpl in *. now rewrite HO in Hrest.
  - simpl in *.
    destruct (TvRestore (Data u) (Data f) (Width f) (Height f)
                (NumChannels f) Opt) as [ok d] eqn:E.
    destruct ok; simpl in *.
    + repeat split; auto.
      rewrite correct_lambda_name in *.
      apply (tuned_from_set_Data m sigma f u d).
      apply IH; auto.
      apply (tuned_from_set_Data m sigma f u d). exact Hrest.
    + rewrite (Hfail eq_refl). simpl. auto.
Qed.


(** The loop changes no option but lambda. *)
Lemma tune_loop_opt (k : nat) :
  forall (lambda : num) (Opt : tvregopt) (u : image),
    OptNoiseModel (opt (loop k lambda Opt u)) = OptNoiseModel Opt /\
    OptTol (opt (loop k lambda Opt u)) = OptTol Opt /\
    OptMaxIter (opt (loop k lambda Opt u)) = OptMaxIter Opt /\
    OptPlotFun (opt (loop k lambda Opt u)) = OptPlotFun Opt.
Proof.
  unfold loop. induction k as [|k IH]; intros lambda Opt u; simpl.
  - auto.
  - destruct (TvRestore (Data u) (Data f) (Width f) (Height f)
                (NumChannels f) Opt) as [ok d].
    destruct ok; simpl; auto.
    match goal with |- context [tune_loop _ _ _ _ _ ?l ?o ?v] =>
      specialize (IH l o v) end.
    simpl in IH. exact IH.
Qed.

(** A loop that returns success has completed [k] rounds, whatever the
    solver left in [u] at each of them. *)
Lemma tune_loop_rounds (k : nat) :
  forall (lambda : num) (Opt : tvregopt) (u : image),
    OptLambda Opt = lambda ->
    ret (loop k lambda Opt u) = true ->
    exists rounds : list call,
      List.length rounds = k /\
      out (loop k lambda Opt u) = flat_map (round_events m sigma f u) rounds /\
      Forall (fun c => call_ok c = true /\
                       OptTol (call_opt c) = OptTol Opt /\
                       OptMaxIter (call_opt c) = OptMaxIter Opt) rounds /\
      Width (img (loop k lambda Opt u)) = Width u /\
      Height (img (loop k lambda Opt u)) = Height u /\
      NumChannels (img (loop k lambda Opt u)) = NumChannels u.
Proof.
  unfold loop.
  induction k as [|k IH]; intros lambda Opt u HO Hret.
  - exists []. simpl. repeat split; auto.
  - cbn [tune_loop] in *.
    destruct (TvRestore (Data u) (Data f) (Width f) (Height f)
                (NumChannels f) Opt) as [ok d].
    destruct ok; cbn [negb ret out img] in *; [|discriminate].
    destruct (IH (correct_lambda (name_of m) lambda
                    (ComputeRmse f (set_Data u d)) sigma)
                 (TvRegSetLambda Opt
                    (correct_lambda (name_of m) lambda
                       (ComputeRmse f (set_Data u d)) sigma))
                 (set_Data u d) eq_refl Hret)
      as (rounds & Hlen & Hout & Hall & Hw & Hh & Hc).
    exists ({| call_opt := Opt; call_u0 := Data u; call_ok := true;
               call_u1 := d |} :: rounds).
    simpl. repeat split; auto.
    + unfold residual. simpl. rewrite HO, <- correct_lambda_name.
      rewrite Hout. reflexivity.
Qed.

End Loop.

End Tuning.

(** ** Denoise *)

Section Orchestration.

Context {N : Num}.

(** The estimate of lambda by model, floored at 1e-4: what lines 178-192
    compute for a recognized name. *)
Definition EstimateLambda (m : noisemodel) (sigma : num) : num :=
  match m with
  | Gaussian => (dec 7079 4 / sigma + dec 2686 6 / (sigma * sigma))%num
  | Laplace =>
      ((dec (-416) 5 * sigma + dec 1301 6)
       / (((sigma - dec 2042 4) * sigma + dec 1635 5) * sigma
          + dec 5836 7))%num
  | Poisson => (dec 2839 4 / sigma + dec 1502 6 / (sigma * sigma))%num
  end.

Definition InitialLambda (m : noisemodel) (sigma : num) : num :=
  floor_lambda (EstimateLambda m sigma).

Lemma estimate_lambda_name (m : noisemodel) (sigma : num) :
  estimate_lambda (name_of m) sigma = Some (EstimateLambda m sigma).
Proof. destruct m; reflexivity. Qed.

Lemma estimate_lambda_unrecognized (Model : string) (sigma : num) :
  model_of_name Model = None -> estimate_lambda Model sigma = None.
Proof.
  unfold model_of_name, estimate_lambda.
  destruct (Model =? "gaussian"); [discriminate|].
  destruct (Model =? "laplace"); [discriminate|].
  destruct (Model =? "poisson"); [discriminate|]. reflexivity.
Qed.

(** In any arithmetic in which [1e-4 < 1e-4] is false, the floored
    estimate is never below the floor. *)
Lemma floor_lambda_not_below (l : num) :
  (dec 1 4 <? dec 1 4)%num = false ->
  (floor_lambda l <? dec 1 4)%num = false.
Proof.
  intros Hirr. unfold floor_lambda.
  destruct (l <? dec 1 4)%num eqn:E; auto.
Qed.

(** The line [Denoise] prints first. *)
Definition banner (m : noisemodel) : event :=
  OutModel (toupper (first_char (name_of m))) (rest_chars (name_of m)).

(** The options of the tuning rounds and of the final solve. *)
Definition tuning_options (m : noisemodel) (lambda : num) : tvregopt :=
  {| OptLambda := lambda; OptNoiseModel := m; OptTol := dec 1 2;
     OptMaxIter := 40; OptPlotFun := false |}.

Definition final_options (m : noisemodel) (lambda : num) : tvregopt :=
  {| OptLambda := lambda; OptNoiseModel := m; OptTol := dec 5 4;
     OptMaxIter := 100; OptPlotFun := false |}.

Lemma image_eta (u v : image) :
  Width v = Width u -> Height v = Height u ->
  NumChannels v = NumChannels u -> v = set_Data u (Data v).
Proof.
  destruct u, v; simpl; intros -> -> ->. reflexivity.
Qed.

End Orchestration.

(** C1 (amended).  Called with a model name that is none of "gaussian",
    "laplace", "poisson", [Denoise] returns failure without any solver
    call, and it returns before the copy of [f] into [u]: the buffer [u]
    is left exactly as it was passed. *)
Theorem Denoise_unrecognized_model :
  forall (N : Num) TvRegNewOpt TvRestore (u f : image) (Model : string)
         (sigma lambda : num),
    Model <> "gaussian" -> Model <> "laplace" -> Model <> "poisson" ->
    exists tr : list event,
      Denoise TvRegNewOpt TvRestore u f Model sigma lambda = (false, u, tr)
      /\ calls tr = [].
Proof.
  intros N NewOpt TvRestore u f Model sigma lambda Hg Hl Hp.
  unfold Denoise, TvRegSetNoiseModel.
  rewrite (model_of_name_None Model Hg Hl Hp).
  destruct NewOpt as [Opt0|]; eexists; split; reflexivity.
Qed.

(** C9.  With [sigma <= 0] the lambda passed to [Denoise] goes unchanged
    into the options and nothing is tuned: the whole run is the banner
    and one solver call, on the copy of [f] and with the options of the
    final solve carrying that lambda; no tuning line is printed, no
    residual is measured. *)
Theorem Denoise_given_lambda :
  forall (N : Num) (O : NumOrder N) TvRestore (Opt0 : tvregopt)
         (u f : image) (m : noisemodel) (sigma lambda : num),
    (sigma <=? of_int 0)%num = true ->
    forall (ok : bool) (d : list num),
      TvRestore (memcpy (Data u) (Data f) (NumSamples f)) (Data f)
        (Width f) (Height f) (NumChannels f) (final_options m lambda)
      = (ok, d) ->
      Denoise (Some Opt0) TvRestore u f (name_of m) sigma lambda
      = (ok, set_Data u d,
         banner m
         :: Restore (final_options m lambda)
              (memcpy (Data u) (Data f) (NumSamples f)) ok d
         :: (if ok then [] else [ErrComputation])).
Proof.
  intros N O TvRestore Opt0 u f m sigma lambda Hle ok d Hcall.
  assert (Hpos : (of_int 0 <? sigma)%num = false).
  { destruct (of_int 0 <? sigma)%num eqn:E; auto.
    apply pos_not_le0 in E. congruence. }
  unfold Denoise, TvRegSetNoiseModel. rewrite model_of_name_of.
  unfold choose_lambda. rewrite Hle. simpl ret. simpl negb. cbv iota.
  unfold final_denoising. simpl opt. simpl img.
  change (TvRegSetMaxIter _ 100) with (final_options m lambda).
  simpl Data. rewrite Hcall.
  destruct ok; simpl; rewrite ?Hpos; reflexivity.
Qed.

(** C3.  With [sigma > 0], whatever the solver leaves in [u] at each
    call, a run of [Denoise] in which no call reports failure is: the
    banner and the heading of the tuning with the initial lambda; exactly
    five rounds, each one solver call at tolerance 1e-2 and at most 40
    iterations followed by the line with the measured residual and the
    corrected lambda; one final solver call at tolerance 5e-4 and at most
    100 iterations; the final residual. *)
Theorem Denoise_tunes_five_rounds :
  forall (N : Num) (O : NumOrder N) TvRestore (Opt0 : tvregopt)
         (u f : image) (m : noisemodel) (sigma lambda : num),
    (of_int 0 <? sigma)%num = true ->
    fst (fst (Denoise (Some Opt0) TvRestore u f (name_of m) sigma lambda))
    = true ->
    exists (rounds : list call) (final : call),
      Denoise (Some Opt0) TvRestore u f (name_of m) sigma lambda
      = (true, set_Data u (call_u1 final),
         banner m :: OutTuning
         :: OutTarget (of_int DISPLAY_SCALING * sigma)%num
         :: OutRule :: OutLambda (InitialLambda m sigma)
         :: flat_map (round_events m sigma f u) rounds
         ++ [event_of_call final;
             OutFinal (of_int DISPLAY_SCALING
                       * residual f u (call_u1 final))%num])
      /\ List.length rounds = 5%nat
      /\ Forall (fun c => call_ok c = true /\
                          OptTol (call_opt c) = dec 1 2 /\
                          OptMaxIter (call_opt c) = 40) rounds
      /\ call_ok final = true
      /\ OptTol (call_opt final) = dec 5 4
      /\ OptMaxIter (call_opt final) = 100.
Proof.
  intros N O TvRestore Opt0 u f m sigma lambda Hpos.
  unfold Denoise, TvRegSetNoiseModel. rewrite model_of_name_of.
  unfold choose_lambda. rewrite (pos_not_le0 _ Hpos).
  unfold LambdaTune. rewrite estimate_lambda_name.
  fold (InitialLambda m sigma).
  set (u1 := set_Data u (memcpy (Data u) (Data f) (NumSamples f))).
  set (Opt := TvRegSetLambda _ (InitialLambda m sigma)).
  pose proof (tune_loop_rounds TvRestore m sigma f LAMBDA_TUNE_ITERATIONS
                (InitialLambda m sigma) Opt u1 eq_refl) as Hloop.
  cbv zeta in Hloop.
  set (r := tune_loop TvRestore LAMBDA_TUNE_ITERATIONS f (name_of m) sigma
              (InitialLambda m sigma) Opt u1) in *.
  cbv zeta. cbn [ret opt img out].
  destruct (ret r) eqn:Hret; cbn [negb fst]; [|discriminate].
  destruct (Hloop eq_refl) as (rounds & Hlen & Hout & Hall & Hw & Hh & Hc).
  rewrite Hout. unfold final_denoising.
  set (Optf := TvRegSetMaxIter (TvRegSetTol (opt r) (dec 5 4)) 100).
  destruct (TvRestore (Data (img r)) (Data f) (Width f) (Height f)
              (NumChannels f) Optf) as [ok d].
  destruct ok; cbn [negb ret img out]; [|discriminate].
  intros _. rewrite Hpos.
  rewrite (image_eta u1 (img r) Hw Hh Hc).
  exists rounds,
    {| call_opt := Optf; call_u0 := Data (img r); call_ok := true;
       call_u1 := d |}.
  repeat split; auto.
Qed.

Section Recurrence.

Context {N : Num}.


Lemma tuned_from_head m sigma f u :
  forall (cs : list call) (lambda : num) (u0 : list num) (c : call),
    tuned_from m sigma f u lambda u0 cs ->
    nth_error cs 0 = Some c ->
    OptLambda (call_opt c) = lambda /\ call_u0 c = u0.
Proof.
  intros [|c0 cs] lambda u0 c Hcs Hc; simpl in *; try discriminate.
  injection Hc as <-. tauto.
Qed.

(** When lambda is tuned, the solver calls of a run of [Denoise], the
    final one included, follow the recurrence from the initial lambda
    and the copy of [f]; this holds whether or not a call fails. *)
Lemma Denoise_tuned TvRestore (Opt0 : tvregopt) (u f : image)
    (m : noisemodel) (sigma lambda : num) :
  (sigma <=? of_int 0)%num = false ->
  tuned_from m sigma f u (InitialLambda m sigma)
    (memcpy (Data u) (Data f) (NumSamples f))
    (calls (snd (Denoise (Some Opt0) TvRestore u f (name_of m) sigma lambda))).
Proof.
  intros Hle.
  unfold Denoise, TvRegSetNoiseModel. rewrite model_of_name_of.
  unfold choose_lambda. rewrite Hle.
  unfold LambdaTune. rewrite estimate_lambda_name.
  fold (InitialLambda m sigma).
  set (u1 := set_Data u (memcpy (Data u) (Data f) (NumSamples f))).
  set (Opt := TvRegSetLambda _ (InitialLambda m sigma)).
  pose proof (tune_loop_tuned TvRestore m sigma f LAMBDA_TUNE_ITERATIONS
                (InitialLambda m sigma) Opt u1) as Hloop.
  cbv zeta in Hloop.
  set (r := tune_loop TvRestore LAMBDA_TUNE_ITERATIONS f (name_of m) sigma
              (InitialLambda m sigma) Opt u1) in *.
  cbv zeta. simpl ret. simpl opt. simpl img. simpl out.
  apply (tuned_from_set_Data m sigma f u
           (memcpy (Data u) (Data f) (NumSamples f))).
  change (memcpy (Data u) (Data f) (NumSamples f)) with (Data u1) at 2.
  fold u1.
  destruct (ret r) eqn:Hret; simpl negb; cbv iota; simpl snd; simpl calls.
  - rewrite calls_app. apply Hloop; [reflexivity|discriminate|].
    unfold final_denoising.
    destruct (TvRestore (Data (img r)) (Data f) (Width f) (Height f)
                (NumChannels f) _) as [ok d].
    destruct ok; simpl negb; cbv iota; simpl out.
    + destruct (of_int 0 <? sigma)%num; simpl; auto.
    + simpl; auto.
  - rewrite <- (app_nil_r (calls (out r))).
    apply Hloop; simpl; auto.
Qed.

(** In particular the first solver call of a tuned run starts from the
    copy of [f] (the first [NumSamples f] samples of [u]) with the
    initial lambda. *)
Lemma Denoise_first_call TvRestore (Opt0 : tvregopt) (u f : image)
    (m : noisemodel) (sigma lambda : num) (c : call) :
  (sigma <=? of_int 0)%num = false ->
  nth_error
    (calls (snd (Denoise (Some Opt0) TvRestore u f (name_of m) sigma lambda)))
    0 = Some c ->
  OptLambda (call_opt c) = InitialLambda m sigma
  /\ call_u0 c = memcpy (Data u) (Data f) (NumSamples f).
Proof.
  intros Hle Hc.
  exact (tuned_from_head m sigma f u _ _ _ c
           (Denoise_tuned TvRestore Opt0 u f m sigma lambda Hle) Hc).
Qed.

End Recurrence.

(** ** Success and failure of a run *)

Section Status.

Context {N : Num}.
Variable TvRestore :
  list num -> list num -> Z -> Z -> Z -> tvregopt -> bool * list num.

Lemma tune_loop_status (f : image) (Model : string) (sigma : num) (k : nat) :
  forall (lambda : num) (Opt : tvregopt) (u : image),
    ret (tune_loop TvRestore k f Model sigma lambda Opt u)
    = forallb call_ok
        (calls (out (tune_loop TvRestore k f Model sigma lambda Opt u))).
Proof.
  induction k as [|k IH]; intros lambda Opt u; cbn [tune_loop].
  - reflexivity.
  - destruct (TvRestore (Data u) (Data f) (Width f) (Height f)
                (NumChannels f) Opt) as [ok d].
    destruct ok; cbn [negb ret out calls forallb call_ok andb]; auto.
Qed.

(** [Denoise] succeeds exactly when every solver call it made reported
    success: the first failing call ends the run. *)
Lemma Denoise_status (Opt0 : tvregopt) (u f : image) (m : noisemodel)
    (sigma lambda : num) :
  fst (fst (Denoise (Some Opt0) TvRestore u f (name_of m) sigma lambda))
  = forallb call_ok
      (calls (snd (Denoise (Some Opt0) TvRestore u f (name_of m) sigma
                     lambda))).
Proof.
  unfold Denoise, TvRegSetNoiseModel. rewrite model_of_name_of.
  set (u1 := set_Data u (memcpy (Data u) (Data f) (NumSamples f))).
  set (Opt := TvRegSetMaxIter _ 40).
  assert (Hc : ret (choose_lambda TvRestore Opt u1 f (name_of m) sigma lambda)
               = forallb call_ok
                   (calls (out (choose_lambda TvRestore Opt u1 f (name_of m)
                                  sigma lambda)))).
  { unfold choose_lambda. destruct (sigma <=? of_int 0)%num; [reflexivity|].
    unfold LambdaTune. rewrite estimate_lambda_name.
    cbv zeta. cbn [ret out calls]. apply tune_loop_status. }
  set (r := choose_lambda TvRestore Opt u1 f (name_of m) sigma lambda) in *.
  destruct (ret r) eqn:Hret; cbn [negb fst snd calls].
  - rewrite calls_app, forallb_app, <- Hc. cbn [andb].
    unfold final_denoising.
    destruct (TvRestore (Data (img r)) (Data f) (Width f) (Height f)
                (NumChannels f) _) as [ok d].
    destruct ok; cbn [negb ret out calls forallb call_ok andb]; auto.
    destruct (of_int 0 <? sigma)%num; reflexivity.
  - exact Hc.
Qed.

End Status.


(** ** Exact arithmetic: the formulas of the specification *)

Section Exact.

#[local] Open Scope R_scope.







End Exact.



(** ** Exact arithmetic: the residual *)

Section Residual.

#[local] Open Scope R_scope.


Lemma fold_left_ext_in {A B : Type} (g h : A -> B -> A) (l : list B) :
  (forall acc x, In x l -> g acc x = h acc x) ->
  forall acc, fold_left g l acc = fold_left h l acc.
Proof.
  induction l as [|x l IH]; intros Hgh acc; simpl; auto.
  rewrite (Hgh acc x (or_introl eq_refl)).
  apply IH. intros acc' y Hy. apply Hgh. now right.
Qed.






End Residual.



(** ** Exact arithmetic: a zero residual *)

Section ZeroResidual.

#[local] Open Scope R_scope.





End ZeroResidual.


(** ** ParseParams: what is required of sigma and lambda *)

Section Validation.

Context {N : Num} {O : NumOrder N}.
Variable atof : string -> num.
Variable atoi : string -> Z.
Variable LIBJPEG_SUPPORT : bool.








End Validation.


(** * Further properties of the code *)

(** * Further properties *)

(** ** ComputeRmse *)

Lemma nth_firstn_below {A : Type} (k n : nat) (l : list A) (d : A) :
  (n < k)%nat -> nth n (firstn k l) d = nth n l d.
Proof.
  revert n l. induction k as [|k IH]; intros n l Hn; [lia|].
  destruct l as [|x l]; [reflexivity|].
  destruct n as [|n]; [reflexivity|]. simpl. apply IH. lia.
Qed.

(** X1.  [ComputeRmse] reads the first [N] samples of each buffer and
    nothing else, [N] being the sample count of its second argument:
    buffers that agree on their first [N] samples give the same
    residual. *)
Theorem ComputeRmse_first_samples :
  forall (N : Num) (f f' u u' : image),
    Width u = Width u' -> Height u = Height u' ->
    NumChannels u = NumChannels u' ->
    firstn (Z.to_nat (NumSamples u)) (Data f)
    = firstn (Z.to_nat (NumSamples u)) (Data f') ->
    firstn (Z.to_nat (NumSamples u)) (Data u)
    = firstn (Z.to_nat (NumSamples u)) (Data u') ->
    ComputeRmse f u = ComputeRmse f' u'.
Proof.
  intros N f f' u u' Hw Hh Hc Hf Hu.
  assert (HN : NumSamples u' = NumSamples u).
  { unfold NumSamples. now rewrite Hw, Hh, Hc. }
  unfold ComputeRmse. rewrite HN. f_equal. f_equal.
  apply fold_left_ext_in. intros acc n Hn. apply in_seq in Hn.
  unfold rmse_step, sample.
  rewrite <- (nth_firstn_below (Z.to_nat (NumSamples u)) n (Data f)) by lia.
  rewrite <- (nth_firstn_below (Z.to_nat (NumSamples u)) n (Data u)) by lia.
  rewrite Hf, Hu.
  rewrite !nth_firstn_below by lia. reflexivity.
Qed.

Section ResidualFacts.

#[local] Open Scope R_scope.





End ResidualFacts.



(** ** The solver calls of any run of Denoise *)

Section Calls.

Context {N : Num}.

(** The call [c] ran with the options [Opt], lambda apart. *)
Definition runs_with (Opt : tvregopt) (c : call) : Prop :=
  OptNoiseModel (call_opt c) = OptNoiseModel Opt /\
  OptPlotFun (call_opt c) = OptPlotFun Opt /\
  OptTol (call_opt c) = OptTol Opt /\
  OptMaxIter (call_opt c) = OptMaxIter Opt.

(** Each call of [cs] starts from the buffer the call before it left,
    the first one from [u0]. *)
Fixpoint warm_from (u0 : list num) (cs : list call) : Prop :=
  match cs with
  | [] => True
  | c :: cs' => call_u0 c = u0 /\ warm_from (call_u1 c) cs'
  end.

(** The buffer after the calls [cs], started from [u0]. *)
Fixpoint buffer_after (u0 : list num) (cs : list call) : list num :=
  match cs with
  | [] => u0
  | c :: cs' => buffer_after (call_u1 c) cs'
  end.

Lemma warm_from_app (cs1 cs2 : list call) :
  forall u0 : list num,
    warm_from u0 cs1 -> warm_from (buffer_after u0 cs1) cs2 ->
    warm_from u0 (cs1 ++ cs2).
Proof.
  induction cs1 as [|c cs1 IH]; intros u0 H1 H2; simpl in *; auto.
  destruct H1 as [H1 H1']. split; auto.
Qed.

Lemma buffer_after_app (cs1 cs2 : list call) :
  forall u0 : list num,
    buffer_after u0 (cs1 ++ cs2) = buffer_after (buffer_after u0 cs1) cs2.
Proof. induction cs1 as [|c cs1 IH]; intros u0; simpl; auto. Qed.


Lemma buffer_after_last (cs : list call) (last : call) (u0 : list num) :
  buffer_after u0 (cs ++ [last]) = call_u1 last.
Proof. rewrite buffer_after_app. reflexivity. Qed.

Section AnySolver.

Variable TvRestore :
  list num -> list num -> Z -> Z -> Z -> tvregopt -> bool * list num.

(** The calls of the loop, whatever the solver does: some rounds that
    succeeded and, when the loop returns 0, the call that failed after
    them. *)
Lemma tune_loop_shape (f : image) (Model : string) (sigma : num) (k : nat) :
  forall (lambda : num) (Opt : tvregopt) (u : image),
    let r := tune_loop TvRestore k f Model sigma lambda Opt u in
    exists good rest : list call,
      calls (out r) = good ++ rest
      /\ Forall (fun c => call_ok c = true /\ runs_with Opt c) good
      /\ warm_from (Data u) (good ++ rest)
      /\ Data (img r) = buffer_after (Data u) (good ++ rest)
      /\ Width (img r) = Width u /\ Height (img r) = Height u
      /\ NumChannels (img r) = NumChannels u
      /\ OptNoiseModel (opt r) = OptNoiseModel Opt
      /\ OptPlotFun (opt r) = OptPlotFun Opt
      /\ ((ret r = true /\ rest = [] /\ List.length good = k)
          \/ (ret r = false /\ (List.length good < k)%nat
              /\ exists bad, rest = [bad] /\ call_ok bad = false
                             /\ runs_with Opt bad)).
Proof.
  induction k as [|k IH]; intros lambda Opt u; cbn [tune_loop].
  - exists [], []. cbn. repeat split; auto.
  - destruct (TvRestore (Data u) (Data f) (Width f) (Height f)
                (NumChannels f) Opt) as [ok d].
    destruct ok; cbn [negb ret out opt img calls].
    + match goal with |- context [tune_loop _ _ _ _ _ ?l ?o ?v] =>
        destruct (IH l o v)
          as (good & rest & Hc & Hg & Hw & Hb & HW & HH & HC & Hm & Hp & Hr)
      end.
      cbv zeta in *.
      exists ({| call_opt := Opt; call_u0 := Data u; call_ok := true;
                 call_u1 := d |} :: good), rest.
      rewrite Hc. cbn [app warm_from buffer_after call_u0 call_u1 Data set_Data]
        in *.
      repeat split; auto.
      * constructor; [repeat split; auto|].
        eapply Forall_impl; [|exact Hg].
        intros c [Hk Hrw]. split; auto.
      * destruct Hr as [(Hr & He & Hl)|(Hr & Hl & bad & He & Hbad & Hrw)].
        -- left. cbn. auto.
        -- right. repeat split; auto; [cbn; lia|].
           exists bad. auto.
    + exists [], [{| call_opt := Opt; call_u0 := Data u; call_ok := false;
                    call_u1 := d |}].
      cbn. repeat split; auto.
      right. repeat split; auto; [lia|]. eexists. repeat split.
Qed.

(** The calls of a run of [Denoise] with a recognized model: at most
    five rounds that succeeded, then a last call whose outcome is that of
    the run. *)
Lemma Denoise_shape (Opt0 : tvregopt) (u f : image) (m : noisemodel)
    (sigma lambda : num) :
  let run := Denoise (Some Opt0) TvRestore u f (name_of m) sigma lambda in
  exists (good : list call) (last : call),
    calls (snd run) = good ++ [last]
    /\ (List.length good <= LAMBDA_TUNE_ITERATIONS)%nat
    /\ Forall (fun c => call_ok c = true
                        /\ runs_with (tuning_options m lambda) c) good
    /\ (runs_with (tuning_options m lambda) last
        \/ runs_with (final_options m lambda) last)
    /\ (call_ok last = true -> runs_with (final_options m lambda) last)
    /\ fst (fst run) = call_ok last
    /\ warm_from (memcpy (Data u) (Data f) (NumSamples f)) (good ++ [last])
    /\ Data (snd (fst run)) = call_u1 last.
Proof.
  cbv zeta. unfold Denoise, TvRegSetNoiseModel. rewrite model_of_name_of.
  set (u1 := set_Data u (memcpy (Data u) (Data f) (NumSamples f))).
  set (Opt := TvRegSetMaxIter _ 40).
  assert (Hc : exists good rest : list call,
             calls (out (choose_lambda TvRestore Opt u1 f (name_of m) sigma
                           lambda)) = good ++ rest
             /\ (List.length good <= LAMBDA_TUNE_ITERATIONS)%nat
             /\ Forall (fun c => call_ok c = true /\ runs_with Opt c) good
             /\ warm_from (Data u1) (good ++ rest)
             /\ Data (img (choose_lambda TvRestore Opt u1 f (name_of m) sigma
                             lambda))
                = buffer_after (Data u1) (good ++ rest)
             /\ OptNoiseModel (opt (choose_lambda TvRestore Opt u1 f
                                      (name_of m) sigma lambda)) = m
             /\ OptPlotFun (opt (choose_lambda TvRestore Opt u1 f
                                   (name_of m) sigma lambda)) = false
             /\ ((ret (choose_lambda TvRestore Opt u1 f (name_of m) sigma
                         lambda) = true /\ rest = [])
                 \/ (ret (choose_lambda TvRestore Opt u1 f (name_of m) sigma
                            lambda) = false
                     /\ exists bad, rest = [bad] /\ call_ok bad = false
                                    /\ runs_with Opt bad))).
  { unfold choose_lambda. destruct (sigma <=? of_int 0)%num.
    - exists [], []. cbn. repeat split; auto; try lia.
    - unfold LambdaTune. rewrite estimate_lambda_name.
      cbv zeta. cbn [ret opt img out calls].
      match goal with |- context [tune_loop _ ?k _ _ _ ?l ?o ?v] =>
        destruct (tune_loop_shape f (name_of m) sigma k l o v)
          as (good & rest & Hc & Hg & Hw & Hb & _ & _ & _ & Hm & Hp & Hr)
      end.
      cbv zeta in *. exists good, rest.
      repeat split; auto.
      + destruct Hr as [(_ & _ & Hl)|(_ & Hl & _)]; lia.
      + destruct Hr as [(Hr & He & _)|(Hr & _ & Hbad)]; [left|right]; auto. }
  destruct Hc as (good & rest & Hc & Hl & Hg & Hw & Hb & Hm & Hp & Hr).
  set (r := choose_lambda TvRestore Opt u1 f (name_of m) sigma lambda) in *.
  assert (Hconf : forall c, runs_with Opt c ->
                            runs_with (tuning_options m lambda) c).
  { intros c H. exact H. }
  destruct Hr as [(Hr & He)|(Hr & bad & He & Hbad & Hrw)]; rewrite Hr;
    cbn [negb fst snd calls]; subst rest.
  - rewrite app_nil_r in *. rewrite calls_app, Hc.
    unfold final_denoising.
    set (Optf := TvRegSetMaxIter (TvRegSetTol (opt r) (dec 5 4)) 100).
    destruct (TvRestore (Data (img r)) (Data f) (Width f) (Height f)
                (NumChannels f) Optf) as [ok d] eqn:Ecall.
    assert (Hfin : forall k, runs_with (final_options m lambda)
                     {| call_opt := Optf; call_u0 := Data (img r);
                        call_ok := k; call_u1 := d |}).
    { intros k. unfold runs_with, Optf. cbn. auto. }
    exists good,
      {| call_opt := Optf; call_u0 := Data (img r); call_ok := ok;
         call_u1 := d |}.
    assert (Hcalls : calls (out (if negb ok
                     then {| ret := false; opt := Optf;
                             img := set_Data (img r) d;
                             out := [Restore Optf (Data (img r)) ok d;
                                     ErrComputation] |}
                     else {| ret := true; opt := Optf;
                             img := set_Data (img r) d;
                             out := Restore Optf (Data (img r)) ok d
                                    :: (if (of_int 0 <? sigma)%num
                                        then [OutFinal
                                                (of_int DISPLAY_SCALING
                                                 * ComputeRmse f
                                                     (set_Data (img r) d))%num]
                                        else []) |}))
                     = [{| call_opt := Optf; call_u0 := Data (img r);
                           call_ok := ok; call_u1 := d |}]).
    { destruct ok; cbn; [destruct (of_int 0 <? sigma)%num|]; reflexivity. }
    rewrite Hcalls.
    split; [reflexivity|]. split; [exact Hl|].
    split; [eapply Forall_impl; [|exact Hg]; intros c [Hk Hc']; auto|].
    split; [right; apply Hfin|]. split; [intros _; apply Hfin|].
    split; [destruct ok; reflexivity|].
    split; [apply warm_from_app; auto; cbn; rewrite Hb; auto|].
    destruct ok; reflexivity.
  - exists good, bad.
    split; [exact Hc|]. split; [exact Hl|].
    split; [eapply Forall_impl; [|exact Hg]; intros c [Hk Hc']; auto|].
    split; [left; apply Hconf, Hrw|].
    split; [rewrite Hbad; discriminate|].
    split; [symmetry; exact Hbad|].
    split; [exact Hw|].
    rewrite Hb, buffer_after_last. reflexivity.
Qed.

End AnySolver.

End Calls.



(** X6.  Every solver call of a run carries the noise model that was
    named and no progress callback, at tolerance 1e-2 with at most 40
    iterations or at tolerance 5e-4 with at most 100; a call that
    succeeded with the second setting is the last one. *)
Theorem Denoise_call_options :
  forall (N : Num) TvRestore (Opt0 : tvregopt) (u f : image)
         (m : noisemodel) (sigma lambda : num),
    let cs :=
      calls (snd (Denoise (Some Opt0) TvRestore u f (name_of m) sigma lambda))
    in
    Forall (fun c =>
              OptNoiseModel (call_opt c) = m
              /\ OptPlotFun (call_opt c) = false
              /\ ((OptTol (call_opt c) = dec 1 2
                   /\ OptMaxIter (call_opt c) = 40)
                  \/ (OptTol (call_opt c) = dec 5 4
                      /\ OptMaxIter (call_opt c) = 100))) cs
    /\ (forall (i : nat) (c : call),
          nth_error cs i = Some c ->
          OptMaxIter (call_opt c) = 100 -> S i = List.length cs).
Proof.
  intros N TvRestore Opt0 u f m sigma lambda cs. subst cs.
  destruct (Denoise_shape TvRestore Opt0 u f m sigma lambda)
    as (good & last & Hc & _ & Hg & Hlast & _).
  rewrite Hc. split.
  - apply Forall_app. split.
    + eapply Forall_impl; [|exact Hg].
      intros c (_ & Hm & Hp & Ht & Hi). cbn in *. auto.
    + constructor; [|constructor].
      destruct Hlast as [(Hm & Hp & Ht & Hi)|(Hm & Hp & Ht & Hi)];
        cbn in *; auto.
  - intros i c Hi H100. rewrite length_app. simpl.
    destruct (Nat.lt_ge_cases i (List.length good)) as [Hlt|Hge].
    + rewrite nth_error_app1 in Hi by exact Hlt.
      apply nth_error_In in Hi. rewrite Forall_forall in Hg.
      destruct (Hg c Hi) as (_ & _ & _ & _ & Hit). cbn in Hit.
      rewrite Hit in H100. discriminate.
    + rewrite nth_error_app2 in Hi by exact Hge.
      destruct (i - List.length good)%nat as [|j] eqn:E; [lia|].
      destruct j; discriminate.
Qed.


(** ** Exact arithmetic: the lambda of the tuning *)

Section LambdaFacts.

#[local] Open Scope R_scope.









End LambdaFacts.





(** ** ParseParams: the reading of the arguments *)

Section Arguments.

Context {N : Num}.
Variable atof : string -> num.
Variable atoi : string -> Z.
Variable LIBJPEG_SUPPORT : bool.

Let parse_args' := parse_args atof atoi LIBJPEG_SUPPORT.
Let parse_option' := parse_option atof atoi LIBJPEG_SUPPORT.

Lemma substring_all (s : string) : substring 0 (String.length s) s = s.
Proof. induction s as [|c s IH]; simpl; [|rewrite IH]; reflexivity. Qed.

Lemma parse_args_app_upto (n : nat) :
  forall (l1 l2 : list string) (P P' : programparams),
    (List.length l1 <= n)%nat ->
    parse_args' l1 P = Parsed P' ->
    parse_args' (l1 ++ l2) P = parse_args' l2 P'.
Proof.
  unfold parse_args'.
  induction n as [|n IH]; intros l1 l2 P P' Hlen H;
    destruct l1 as [|a rest]; simpl in Hlen; try lia.
  - injection H as <-. reflexivity.
  - injection H as <-. reflexivity.
  - cbn [parse_args app] in *.
    destruct (Ascii.eqb (char_at a 0) "-").
    + destruct (Ascii.eqb (char_at a 1) zero); [discriminate|].
      destruct (negb (Ascii.eqb (char_at a 2) zero)).
      * destruct (parse_option atof atoi LIBJPEG_SUPPORT (char_at a 1)
                    (substring 2 (String.length a - 2) a) P)
          as [P1| |e]; try discriminate.
        apply IH; auto. lia.
      * destruct rest as [|s rest']; [discriminate|].
        cbn [app].
        destruct (parse_option atof atoi LIBJPEG_SUPPORT (char_at a 1) s P)
          as [P1| |e]; try discriminate.
        apply IH; auto. simpl in Hlen. lia.
    + apply IH; auto. lia.
Qed.

(** An argument that is taken as a file name. *)
Definition positional (a : string) : Prop := char_at a 0 <> "-"%char.

Lemma parse_args_positional (files : list string) :
  forall P : programparams,
    Forall positional files ->
    parse_args' files P = Parsed (fold_left (@set_file N) files P).
Proof.
  unfold parse_args'.
  induction files as [|a files IH]; intros P Hall; [reflexivity|].
  inversion Hall as [|? ? Ha Hrest]; subst.
  cbn [parse_args fold_left].
  destruct (Ascii.eqb_spec (char_at a 0) "-"); [contradiction|].
  apply IH; auto.
Qed.

Lemma fold_set_file (files : list string) :
  forall (P : programparams) (a : string),
    InputFile P = Some a ->
    let P' := fold_left (@set_file N) files P in
    InputFile P' = Some a
    /\ OutputFile P' = match files with
                       | [] => OutputFile P
                       | _ :: _ => Some (last files a)
                       end
    /\ JpegQuality P' = JpegQuality P /\ Model P' = Model P
    /\ Sigma P' = Sigma P /\ Lambda P' = Lambda P.
Proof.
  induction files as [|b files IH]; intros P a Ha; cbn [fold_left].
  - cbv zeta. repeat split; auto.
  - assert (Hb : set_file P b
                 = {| InputFile := InputFile P; OutputFile := Some b;
                      JpegQuality := JpegQuality P; Model := Model P;
                      Sigma := Sigma P; Lambda := Lambda P |}).
    { unfold set_file. rewrite Ha. reflexivity. }
    rewrite Hb.
    specialize (IH {| InputFile := InputFile P; OutputFile := Some b;
                      JpegQuality := JpegQuality P; Model := Model P;
                      Sigma := Sigma P; Lambda := Lambda P |} a Ha).
    cbv zeta in *. cbn [InputFile OutputFile JpegQuality Model Sigma Lambda]
      in IH.
    destruct IH as (Hi & Ho & Hq & Hm & Hs & Hl).
    repeat split; auto.
    rewrite Ho. destruct files as [|c files]; reflexivity.
Qed.

End Arguments.

(** X12.  The command line is read from left to right: when a first
    part of the arguments is read without error into [P'], the whole list
    is read as the remaining arguments are from [P']. *)
Theorem parse_args_app :
  forall (N : Num) atof atoi LIBJPEG_SUPPORT (l1 l2 : list string)
         (P P' : programparams),
    parse_args atof atoi LIBJPEG_SUPPORT l1 P = Parsed P' ->
    parse_args atof atoi LIBJPEG_SUPPORT (l1 ++ l2) P
    = parse_args atof atoi LIBJPEG_SUPPORT l2 P'.
Proof.
  intros N atof atoi jpeg l1 l2 P P' H.
  exact (parse_args_app_upto atof atoi jpeg (List.length l1) l1 l2 P P'
           (Nat.le_refl _) H).
Qed.

(** X13.  The value of an option may follow the option letter at once
    or be the next argument: ["-l5"] is read as ["-l" "5"] is, for every
    option letter and every value. *)
Theorem parse_args_attached_value :
  forall (N : Num) atof atoi LIBJPEG_SUPPORT (c v1 : ascii) (v : string)
         (rest : list string) (P : programparams),
    c <> zero -> v1 <> zero ->
    parse_args atof atoi LIBJPEG_SUPPORT
      (String "-" (String c (String v1 v)) :: rest) P
    = parse_args atof atoi LIBJPEG_SUPPORT
        (String "-" (String c EmptyString) :: String v1 v :: rest) P.
Proof.
  intros N atof atoi jpeg c v1 v rest P Hc Hv.
  cbn [parse_args char_at String.get].
  change (Ascii.eqb "-" "-") with true. cbv iota.
  destruct (Ascii.eqb_spec c zero); [contradiction|].
  destruct (Ascii.eqb_spec v1 zero); [contradiction|].
  cbn [negb String.length Nat.sub substring].
  change (Ascii.eqb zero zero) with true. cbn [negb].
  rewrite substring_all. reflexivity.
Qed.

(** X14.  File names are taken in order: after the input file is known,
    a run of arguments that do not start with ['-'] leaves the input
    file and every parameter as they are, and the last of them becomes
    the output file; the ones before it are dropped without a
    message. *)
Theorem parse_args_file_names :
  forall (N : Num) atof atoi LIBJPEG_SUPPORT (files : list string)
         (P : programparams) (input : string),
    InputFile P = Some input ->
    Forall positional files ->
    exists P' : programparams,
      parse_args atof atoi LIBJPEG_SUPPORT files P = Parsed P'
      /\ InputFile P' = Some input
      /\ OutputFile P' = match files with
                         | [] => OutputFile P
                         | _ :: _ => Some (last files input)
                         end
      /\ JpegQuality P' = JpegQuality P /\ Model P' = Model P
      /\ Sigma P' = Sigma P /\ Lambda P' = Lambda P.
Proof.
  intros N atof atoi jpeg files P input Hin Hall.
  exists (fold_left (@set_file N) files P). split.
  - apply parse_args_positional. exact Hall.
  - exact (fold_set_file files P input Hin).
Qed.

Section ParsedInvariants.

Context {N : Num}.
Variable atof : string -> num.
Variable atoi : string -> Z.
Variable LIBJPEG_SUPPORT : bool.

(** From [P] to [P'] over the arguments [args]: the files are kept or
    taken from the arguments, and the JPEG quality is kept or set, under
    [LIBJPEG_SUPPORT], to a value from 1 to 100. *)
Definition files_quality_kept (args : list string) (P P' : programparams)
  : Prop :=
  (InputFile P' = InputFile P
   \/ exists a, In a args /\ positional a /\ InputFile P' = Some a)
  /\ (OutputFile P' = OutputFile P
      \/ exists a, In a args /\ positional a /\ OutputFile P' = Some a)
  /\ (JpegQuality P' = JpegQuality P
      \/ (LIBJPEG_SUPPORT = true /\ 1 <= JpegQuality P' <= 100)).

Lemma files_quality_kept_weaken (args args' : list string)
    (P P' : programparams) :
  (forall a, In a args -> In a args') ->
  files_quality_kept args P P' -> files_quality_kept args' P P'.
Proof.
  intros Hin (Hi & Ho & Hq). repeat split; auto.
  - destruct Hi as [Hi|(a & Ha & Hp & Hi)]; [left|right]; eauto.
  - destruct Ho as [Ho|(a & Ha & Hp & Ho)]; [left|right]; eauto.
Qed.

Lemma files_quality_kept_trans (args : list string)
    (P1 P2 P3 : programparams) :
  files_quality_kept args P1 P2 -> files_quality_kept args P2 P3 ->
  files_quality_kept args P1 P3.
Proof.
  intros (Hi & Ho & Hq) (Hi' & Ho' & Hq'). repeat split.
  - destruct Hi' as [Hi'|Hi']; [rewrite Hi'; exact Hi|right; exact Hi'].
  - destruct Ho' as [Ho'|Ho']; [rewrite Ho'; exact Ho|right; exact Ho'].
  - destruct Hq' as [Hq'|Hq']; [rewrite Hq'; exact Hq|right; exact Hq'].
Qed.

Lemma parse_option_files_quality (c : ascii) (s : string)
    (P P' : programparams) :
  parse_option atof atoi LIBJPEG_SUPPORT c s P = Parsed P' ->
  files_quality_kept [] P P'.
Proof.
  unfold parse_option, files_quality_kept.
  destruct (Ascii.eqb c "n").
  { destruct (strchr s ":") as [[name after]|].
    - destruct (atof after / of_int DISPLAY_SCALING <=? of_int 0)%num;
        [discriminate|]. intros [= <-]. simpl. auto.
    - intros [= <-]. simpl. auto. }
  destruct (Ascii.eqb c "l").
  { destruct (atof s <=? of_int 0)%num; [discriminate|].
    intros [= <-]. simpl. auto. }
  destruct LIBJPEG_SUPPORT; cbn [andb].
  - destruct (Ascii.eqb c "q").
    { destruct (atoi s <=? 0)%Z eqn:E1; [discriminate|].
      destruct (100 <? atoi s)%Z eqn:E2; [discriminate|].
      cbn [orb]. intros [= <-]. simpl. repeat split; auto.
      right. split; auto. lia. }
    destruct (Ascii.eqb c "-"); [discriminate|].
    destruct (isprint c); discriminate.
  - destruct (Ascii.eqb c "-"); [discriminate|].
    destruct (isprint c); discriminate.
Qed.

Lemma parse_args_files_quality_upto (n : nat) :
  forall (args : list string) (P P' : programparams),
    (List.length args <= n)%nat ->
    parse_args atof atoi LIBJPEG_SUPPORT args P = Parsed P' ->
    files_quality_kept args P P'.
Proof.
  induction n as [|n IH]; intros args P P' Hlen H;
    destruct args as [|a rest]; simpl in Hlen; try lia.
  - injection H as <-. repeat split; auto.
  - injection H as <-. repeat split; auto.
  - cbn [parse_args] in H.
    destruct (Ascii.eqb_spec (char_at a 0) "-") as [Hd|Hd].
    + destruct (Ascii.eqb (char_at a 1) zero); [discriminate|].
      destruct (negb (Ascii.eqb (char_at a 2) zero)).
      * destruct (parse_option atof atoi LIBJPEG_SUPPORT (char_at a 1)
                    (substring 2 (String.length a - 2) a) P)
          as [P1| |e] eqn:E; try discriminate.
        apply (files_quality_kept_trans _ P P1 P').
        -- apply (files_quality_kept_weaken []); [intros ? []|].
           exact (parse_option_files_quality _ _ _ _ E).
        -- apply (files_quality_kept_weaken rest); [intros; now right|].
           apply IH; auto. lia.
      * destruct rest as [|s rest']; [discriminate|].
        destruct (parse_option atof atoi LIBJPEG_SUPPORT (char_at a 1) s P)
          as [P1| |e] eqn:E; try discriminate.
        apply (files_quality_kept_trans _ P P1 P').
        -- apply (files_quality_kept_weaken []); [intros ? []|].
           exact (parse_option_files_quality _ _ _ _ E).
        -- apply (files_quality_kept_weaken rest');
             [intros; right; now right|].
           apply IH; auto. simpl in Hlen. lia.
    + apply (files_quality_kept_trans _ P (set_file P a) P').
      * unfold set_file, files_quality_kept.
        destruct (InputFile P) eqn:Ei; cbn; (split; [|split]);
          first [ left; congruence
                | right; exists a; repeat split; auto; now left ].
      * apply (files_quality_kept_weaken rest); [intros; now right|].
        apply IH; auto. lia.
Qed.

End ParsedInvariants.

(** X15.  What every successful parse guarantees: an input file is
    named, and it is one of the arguments that do not start with ['-'];
    the JPEG quality is from 1 to 100, and it is the default 95 when
    [LIBJPEG_SUPPORT] is not defined.  (An output file need not be
    named.) *)
Theorem ParseParams_parsed :
  forall (N : Num) atof atoi LIBJPEG_SUPPORT (argv : list string)
         (p : programparams),
    ParseParams atof atoi LIBJPEG_SUPPORT argv = Parsed p ->
    (exists a, InputFile p = Some a /\ In a (tl argv) /\ positional a)
    /\ 1 <= JpegQuality p <= 100
    /\ (LIBJPEG_SUPPORT = false -> JpegQuality p = 95).
Proof.
  intros N atof atoi jpeg argv p H. unfold ParseParams in H.
  destruct argv as [|prog [|a args]]; try discriminate.
  destruct (parse_args atof atoi jpeg (a :: args) default_params)
    as [P| |e] eqn:E; try discriminate.
  destruct (parse_args_files_quality_upto atof atoi jpeg _ _ _ _
              (Nat.le_refl _) E) as (Hi & _ & Hq).
  destruct (InputFile P) as [file|] eqn:Ef; [|discriminate].
  destruct ((Sigma P <? of_int 0) && (Lambda P <? of_int 0))%num;
    [discriminate|].
  injection H as <-. cbn [tl]. split; [|split].
  - destruct Hi as [Hi|(b & Hb & Hp & Hi)]; [discriminate|].
    exists b. split; [rewrite <- Hi; assumption|auto].
  - destruct Hq as [Hq|[_ Hq]]; [rewrite Hq; simpl; lia|exact Hq].
  - intros Hj. destruct Hq as [Hq|[Hq _]]; [exact Hq|congruence].
Qed.

Section ModelOption.

Context {N : Num}.



End ModelOption.


(** ** IsGrayscale *)

Section GrayscaleFacts.

Context {N : Num} {E : NumNe N}.


End GrayscaleFacts.



(** ** main *)

Section MainFacts.

Context {N : Num} {E : NumNe N}.

Definition is_free (b : buffer) (a : action) : bool :=
  match a, b with
  | ActFree BufF, BufF => true
  | ActFree BufU, BufU => true
  | _, _ => false
  end.

Definition is_read_ok (a : action) : bool :=
  match a with ActRead _ true => true | _ => false end.

Definition is_malloc_ok (a : action) : bool :=
  match a with ActMalloc _ true => true | _ => false end.

Definition is_write (a : action) : bool :=
  match a with ActWrite _ _ _ _ _ _ _ => true | _ => false end.

Definition is_write_ok (a : action) : bool :=
  match a with ActWrite _ _ _ _ _ _ true => true | _ => false end.

(** How often an action of a kind occurs. *)
Definition count (p : action -> bool) (tr : list action) : nat :=
  List.length (filter p tr).

Lemma count_app (p : action -> bool) (tr1 tr2 : list action) :
  count p (tr1 ++ tr2) = (count p tr1 + count p tr2)%nat.
Proof. unfold count. now rewrite filter_app, length_app. Qed.

Lemma count_cons (p : action -> bool) (a : action) (tr : list action) :
  count p (a :: tr) = ((if p a then 1 else 0) + count p tr)%nat.
Proof. unfold count. simpl. now destruct (p a). Qed.

Lemma count_nil (p : action -> bool) : count p [] = 0%nat.
Proof. reflexivity. Qed.

Lemma count_denoise (p : action -> bool) (evs : list event) :
  (forall e, p (ActDenoise e) = false) ->
  count p (map ActDenoise evs) = 0%nat.
Proof.
  intros Hp. unfold count.
  induction evs as [|e evs IH]; simpl; auto. now rewrite Hp.
Qed.

(** The image [main] hands to [Denoise] as [f], from what [ReadImage]
    returned. *)
Definition image_read (data : list num) (width height : Z) : image :=
  {| Data := data; Width := width; Height := height;
     NumChannels :=
       if IsGrayscale {| Data := data; Width := width; Height := height;
                         NumChannels := 0 |}
       then 1 else 3 |}.

(** [IsGrayscale] does not look at the number of channels. *)
Lemma IsGrayscale_channels (data : list num) (width height c c' : Z) :
  IsGrayscale {| Data := data; Width := width; Height := height;
                 NumChannels := c |}
  = IsGrayscale {| Data := data; Width := width; Height := height;
                   NumChannels := c' |}.
Proof.
  unfold IsGrayscale, NumPixels. cbn [Width Height].
  induction (seq 0 (Z.to_nat (width * height))) as [|n ns IH];
    [reflexivity|].
  cbn [gray_loop]. rewrite IH. reflexivity.
Qed.

Variable TvRegNewOpt : option tvregopt.
Variable TvRestore :
  list num -> list num -> Z -> Z -> Z -> tvregopt -> bool * list num.
Variable atof : string -> num.
Variable atoi : string -> Z.
Variable LIBJPEG_SUPPORT : bool.
Variable ReadImage : option string -> option (list num * Z * Z).
Variable WriteImage :
  list num -> Z -> Z -> option string -> bool -> Z -> bool.

(** Counts the actions of a kind in a trace of [main]. *)
Ltac counted :=
  repeat first
    [ rewrite count_app | rewrite count_cons | rewrite count_nil
    | rewrite count_denoise by reflexivity ];
  cbn [is_free is_read_ok is_malloc_ok is_write is_write_ok Nat.add repeat].

(** The paths through [main]: the command line, the image, the buffer,
    the denoising, the output. *)
Ltac main_paths Malloc argv :=
  unfold main, run;
  destruct (ParseParams atof atoi LIBJPEG_SUPPORT argv) as [Param| |e] eqn:Ep;
  [ destruct (ReadImage (InputFile Param)) as [[[data w] h]|] eqn:Er;
    [ cbv zeta; fold (image_read data w h);
      destruct (Malloc (Width (image_read data w h)
                        * Height (image_read data w h)
                        * NumChannels (image_read data w h)))
        as [fresh|] eqn:Em;
      [ destruct (Denoise TvRegNewOpt TvRestore
                    (set_Data (image_read data w h) fresh)
                    (image_read data w h)
                    (Model Param) (Sigma Param) (Lambda Param))
          as [[status u'] evs] eqn:Ed;
        destruct status; cbn [negb]
      | ]
    | ]
  | | ].

(** X18.  The exit status of [main] is 0 or 1, and it is 0 in two cases
    only: the command line was not accepted, in which case [main] prints
    the help or the error message and does nothing else (no image is
    read, nothing is written), or the output image was written. *)
Theorem main_status :
  forall (Malloc : Z -> option (list num)) (argv : list string),
    let result :=
      main TvRegNewOpt TvRestore atof atoi LIBJPEG_SUPPORT ReadImage Malloc
        WriteImage argv in
    (fst result = 0 \/ fst result = 1)
    /\ (fst result = 0
        <-> (snd result
             = parse_message (ParseParams atof atoi LIBJPEG_SUPPORT argv)
             /\ forall p, ParseParams atof atoi LIBJPEG_SUPPORT argv
                          <> Parsed p)
            \/ count is_write_ok (snd result) = 1%nat).
Proof.
  intros Malloc argv result. subst result.
  main_paths Malloc argv; cbn [fst snd];
    [ destruct (WriteImage _ _ _ _ _ _) eqn:Ew | .. ];
    (split; [auto|]);
    rewrite ?count_app, ?count_cons, ?count_nil, ?count_denoise
      by reflexivity;
    cbn [is_write_ok parse_message Nat.add];
    split;
    try discriminate;
    try (intros [[_ H]|H]; [exfalso; exact (H Param eq_refl)|discriminate H]);
    try reflexivity;
    intros _; first [ right; reflexivity | left; split; [reflexivity|discriminate] ].
Qed.

(** X19.  What [main] writes.  [WriteImage] is called at most once, and
    only after the command line was accepted, the image read, the buffer
    obtained and [Denoise] returned 1.  It is given the samples that
    [Denoise] left in [u], the width and height of the image read, the
    output file name of the command line, the grayscale flag that
    [IsGrayscale] gave for the image read, and the quality [JPEGQUALITY]:
    the quality of the option [-q] is not used. *)
Theorem main_written :
  forall (Malloc : Z -> option (list num)) (argv : list string)
         (written : list num) (width height : Z) (file : option string)
         (gray : bool) (quality : Z) (ok : bool),
    In (ActWrite written width height file gray quality ok)
       (snd (main TvRegNewOpt TvRestore atof atoi LIBJPEG_SUPPORT ReadImage
               Malloc WriteImage argv)) ->
    (count is_write
       (snd (main TvRegNewOpt TvRestore atof atoi LIBJPEG_SUPPORT ReadImage
               Malloc WriteImage argv)) = 1)%nat
    /\ exists (Param : programparams) (data fresh : list num)
              (u' : image) (evs : list event),
         ParseParams atof atoi LIBJPEG_SUPPORT argv = Parsed Param
         /\ ReadImage (InputFile Param) = Some (data, width, height)
         /\ Malloc (NumSamples (image_read data width height)) = Some fresh
         /\ Denoise TvRegNewOpt TvRestore
              (set_Data (image_read data width height) fresh)
              (image_read data width height)
              (Model Param) (Sigma Param) (Lambda Param)
            = (true, u', evs)
         /\ written = Data u'
         /\ file = OutputFile Param
         /\ gray = IsGrayscale (image_read data width height)
         /\ quality = JPEGQUALITY
         /\ ok = WriteImage written width height file gray quality.
Proof.
  intros Malloc argv written width height file gray quality ok.
  main_paths Malloc argv; cbn [fst snd]; intros Hin.
  - split.
    + rewrite ?count_app, ?count_cons, ?count_nil, ?count_denoise
        by reflexivity.
      reflexivity.
    + apply in_app_or in Hin. destruct Hin as [Hin|Hin].
      * exfalso. destruct Hin as [Hin|[Hin|Hin]]; try discriminate Hin.
        apply in_map_iff in Hin. destruct Hin as (e & He & _).
        discriminate He.
      * destruct Hin as [Hin|[Hin|[Hin|[]]]]; try discriminate Hin.
        injection Hin as <- <- <- <- <- <- <-.
        exists Param, data, fresh, u', evs.
        split; [reflexivity|]. split; [exact Er|].
        split; [exact Em|]. split; [exact Ed|].
        split; [reflexivity|]. split; [reflexivity|].
        split; [|split; reflexivity].
        unfold image_read. cbn [set_Data NumChannels].
        set (g := IsGrayscale {| Data := data; Width := w; Height := h;
                                 NumChannels := 0 |}).
        rewrite (IsGrayscale_channels data w h (if g then 1 else 3) 0).
        fold g. destruct g; reflexivity.
  - exfalso. apply in_app_or in Hin. destruct Hin as [Hin|Hin].
    + destruct Hin as [Hin|[Hin|Hin]]; try discriminate Hin.
      apply in_map_iff in Hin. destruct Hin as (e & He & _).
      discriminate He.
    + destruct Hin as [Hin|[Hin|[]]]; discriminate Hin.
  - exfalso. destruct Hin as [Hin|[Hin|[Hin|[]]]]; discriminate Hin.
  - exfalso. destruct Hin as [Hin|[]]; discriminate Hin.
  - exfalso. destruct Hin as [Hin|[]]; discriminate Hin.
  - exfalso. destruct Hin as [Hin|[]]; discriminate Hin.
Qed.

(** X20.  [main] releases what it obtained, once: the image buffer is
    freed as often as [ReadImage] succeeded and the buffer of [u] as often
    as [Malloc] succeeded, each at most once, whatever the path taken, and
    nothing happens after the buffers are freed. *)
Theorem main_frees :
  forall (Malloc : Z -> option (list num)) (argv : list string),
    let tr :=
      snd (main TvRegNewOpt TvRestore atof atoi LIBJPEG_SUPPORT ReadImage
             Malloc WriteImage argv) in
    (count (is_free BufF) tr = count is_read_ok tr
     /\ count (is_free BufU) tr = count is_malloc_ok tr
     /\ count is_read_ok tr <= 1 /\ count is_malloc_ok tr <= 1)%nat
    /\ exists before : list action,
         tr = before
              ++ repeat (ActFree BufU) (count is_malloc_ok tr)
              ++ repeat (ActFree BufF) (count is_read_ok tr)
         /\ count (is_free BufF) before = 0%nat
         /\ count (is_free BufU) before = 0%nat.
Proof.
  intros Malloc argv tr. subst tr.
  main_paths Malloc argv; cbn [fst snd parse_message];
    [ destruct (WriteImage _ _ _ _ _ _) eqn:Ew | .. ];
    (split; [counted; repeat split; lia|]).
  - exists (ActRead (InputFile Param) true
            :: ActMalloc (Width (image_read data w h)
                          * Height (image_read data w h)
                          * NumChannels (image_read data w h)) true
            :: map ActDenoise evs
            ++ [ActWrite (Data u') (Width (image_read data w h))
                  (Height (image_read data w h)) (OutputFile Param)
                  (NumChannels (image_read data w h) =? 1)%Z JPEGQUALITY true]).
    counted. split; [|split; reflexivity].
    cbn [app set_Data Width Height NumChannels].
    rewrite <- app_assoc. reflexivity.
  - exists (ActRead (InputFile Param) true
            :: ActMalloc (Width (image_read data w h)
                          * Height (image_read data w h)
                          * NumChannels (image_read data w h)) true
            :: map ActDenoise evs
            ++ [ActWrite (Data u') (Width (image_read data w h))
                  (Height (image_read data w h)) (OutputFile Param)
                  (NumChannels (image_read data w h) =? 1)%Z JPEGQUALITY false]).
    counted. split; [|split; reflexivity].
    cbn [app set_Data Width Height NumChannels].
    rewrite <- app_assoc. reflexivity.
  - exists (ActRead (InputFile Param) true
            :: ActMalloc (Width (image_read data w h)
                          * Height (image_read data w h)
                          * NumChannels (image_read data w h)) true
            :: map ActDenoise evs).
    counted. split; [reflexivity|]. split; reflexivity.
  - exists [ActRead (InputFile Param) true;
            ActMalloc (Width (image_read data w h)
                       * Height (image_read data w h)
                       * NumChannels (image_read data w h)) false].
    split; [reflexivity|]. split; reflexivity.
  - exists [ActRead (InputFile Param) false].
    split; [reflexivity|]. split; reflexivity.
  - exists [ActHelp]. split; [reflexivity|]. split; reflexivity.
  - exists [ActError e]. split; [reflexivity|]. split; reflexivity.
Qed.

End MainFacts.

(** ** The buffer of [u] *)

Section Buffer.

Context {N : Num} {E : NumNe N}.

Variable TvRegNewOpt : option tvregopt.
Variable TvRestore :
  list num -> list num -> Z -> Z -> Z -> tvregopt -> bool * list num.

(** [Denoise] on two images [u] that agree once [f] is copied over
    them. *)
Lemma Denoise_same_start (u1 u2 f : image) (Model : string)
    (Sigma Lambda : num) :
  Width u1 = Width u2 -> Height u1 = Height u2 ->
  NumChannels u1 = NumChannels u2 ->
  memcpy (Data u1) (Data f) (NumSamples f)
  = memcpy (Data u2) (Data f) (NumSamples f) ->
  fst (fst (Denoise TvRegNewOpt TvRestore u1 f Model Sigma Lambda))
  = fst (fst (Denoise TvRegNewOpt TvRestore u2 f Model Sigma Lambda))
  /\ snd (Denoise TvRegNewOpt TvRestore u1 f Model Sigma Lambda)
     = snd (Denoise TvRegNewOpt TvRestore u2 f Model Sigma Lambda)
  /\ (TvRegNewOpt <> None -> model_of_name Model <> None ->
      snd (fst (Denoise TvRegNewOpt TvRestore u1 f Model Sigma Lambda))
      = snd (fst (Denoise TvRegNewOpt TvRestore u2 f Model Sigma Lambda))).
Proof.
  intros Hw Hh Hc Hm. unfold Denoise.
  destruct TvRegNewOpt as [Opt0|].
  - unfold TvRegSetNoiseModel.
    destruct (model_of_name Model) as [m|].
    + assert (Hu : set_Data u1 (memcpy (Data u1) (Data f) (NumSamples f))
                   = set_Data u2 (memcpy (Data u2) (Data f) (NumSamples f)))
        by (unfold set_Data; rewrite Hw, Hh, Hc, Hm; reflexivity).
      cbv zeta. rewrite Hu. auto.
    + cbn [fst snd]. split; [reflexivity|]. split; [reflexivity|].
      intros _ H. exfalso. apply H. reflexivity.
  - cbn [fst snd]. split; [reflexivity|]. split; [reflexivity|].
    intros H. exfalso. apply H. reflexivity.
Qed.

(** [memcpy] over a buffer of exactly the size copied leaves nothing of
    the buffer. *)
Lemma memcpy_all (dst src : list num) (n : Z) :
  List.length dst = Z.to_nat n ->
  memcpy dst src n = firstn (Z.to_nat n) src.
Proof.
  intros H. unfold memcpy.
  rewrite skipn_all2 by (rewrite H; apply Nat.le_refl).
  apply app_nil_r.
Qed.

(** A [Malloc] that gives, when it succeeds, the number of samples asked
    for. *)
Definition allocates (Malloc : Z -> option (list num)) : Prop :=
  forall (n : Z) (a : list num),
    Malloc n = Some a -> List.length a = Z.to_nat n.

End Buffer.

(** X21.  [Denoise] reads nothing of what [u] holds on entry: on two
    buffers [u] of the size of [f] it prints and calls the same and
    returns the same status, and, with a recognized model, leaves the
    same samples in [u]. *)
Theorem Denoise_ignores_u :
  forall (N : Num) TvRegNewOpt TvRestore (u1 u2 f : image)
         (Model : string) (Sigma Lambda : num),
    Width u1 = Width u2 -> Height u1 = Height u2 ->
    NumChannels u1 = NumChannels u2 ->
    List.length (Data u1) = Z.to_nat (NumSamples f) ->
    List.length (Data u2) = Z.to_nat (NumSamples f) ->
    fst (fst (Denoise TvRegNewOpt TvRestore u1 f Model Sigma Lambda))
    = fst (fst (Denoise TvRegNewOpt TvRestore u2 f Model Sigma Lambda))
    /\ snd (Denoise TvRegNewOpt TvRestore u1 f Model Sigma Lambda)
       = snd (Denoise TvRegNewOpt TvRestore u2 f Model Sigma Lambda)
    /\ (TvRegNewOpt <> None -> model_of_name Model <> None ->
        snd (fst (Denoise TvRegNewOpt TvRestore u1 f Model Sigma Lambda))
        = snd (fst (Denoise TvRegNewOpt TvRestore u2 f Model Sigma Lambda))).
Proof.
  intros N new solver u1 u2 f Model Sigma Lambda Hw Hh Hc H1 H2.
  apply Denoise_same_start; auto.
  rewrite (memcpy_all _ _ _ H1), (memcpy_all _ _ _ H2). reflexivity.
Qed.

(** X22.  What [main] does and returns does not depend on what the
    buffer obtained from [Malloc] holds: two allocators that succeed on
    the same sizes, with buffers of the size asked for, give the same
    run. *)
Theorem main_fresh_buffer :
  forall (N : Num) (E : NumNe N) TvRegNewOpt TvRestore atof atoi
         LIBJPEG_SUPPORT ReadImage WriteImage
         (Malloc1 Malloc2 : Z -> option (list num)) (argv : list string),
    allocates Malloc1 -> allocates Malloc2 ->
    (forall n : Z, Malloc1 n = None <-> Malloc2 n = None) ->
    main TvRegNewOpt TvRestore atof atoi LIBJPEG_SUPPORT ReadImage Malloc1
      WriteImage argv
    = main TvRegNewOpt TvRestore atof atoi LIBJPEG_SUPPORT ReadImage Malloc2
        WriteImage argv.
Proof.
  intros N E new solver atof atoi jpeg ReadImage WriteImage M1 M2 argv
    Ha1 Ha2 Hn.
  unfold main.
  destruct (ParseParams atof atoi jpeg argv) as [Param| |e];
    [|reflexivity|reflexivity].
  unfold run.
  destruct (ReadImage (InputFile Param)) as [[[data w] h]|]; [|reflexivity].
  cbv zeta. fold (image_read data w h).
  set (f := image_read data w h).
  fold (NumSamples f).
  destruct (M1 (NumSamples f)) as [a1|] eqn:E1;
    destruct (M2 (NumSamples f)) as [a2|] eqn:E2.
  - destruct (Denoise_same_start new solver (set_Data f a1) (set_Data f a2) f
                (Model Param) (Sigma Param) (Lambda Param))
      as (Hs & He & Hu); try reflexivity.
    { cbn [set_Data Data].
      rewrite (memcpy_all _ _ _ (Ha1 _ _ E1)), (memcpy_all _ _ _ (Ha2 _ _ E2)).
      reflexivity. }
    destruct (Denoise new solver (set_Data f a1) f (Model Param)
                (Sigma Param) (Lambda Param)) as [[s1 v1] e1] eqn:D1.
    destruct (Denoise new solver (set_Data f a2) f (Model Param)
                (Sigma Param) (Lambda Param)) as [[s2 v2] e2] eqn:D2.
    cbn [fst snd] in Hs, He, Hu. subst s2 e2.
    destruct s1; cbn [negb]; [|reflexivity].
    assert (Hv : v1 = v2).
    { apply Hu.
      - intros Hnew. revert D1. unfold Denoise. rewrite Hnew. discriminate.
      - intros Hm. revert D1. unfold Denoise, TvRegSetNoiseModel.
        rewrite Hm. destruct new; discriminate. }
    rewrite Hv. reflexivity.
  - exfalso. apply Hn in E2. rewrite E2 in E1. discriminate E1.
  - exfalso. apply Hn in E1. rewrite E1 in E2. discriminate E2.
  - reflexivity.
Qed.

(** X23.  A model name that is not recognized passes the command line:
    [main] reads the image and obtains the buffer before [Denoise]
    refuses the name, then frees both and returns 1; nothing is
    written. *)
Theorem main_unrecognized_model :
  forall (N : Num) (E : NumNe N) (Opt0 : tvregopt) TvRestore atof atoi
         LIBJPEG_SUPPORT ReadImage Malloc WriteImage (argv : list string)
         (Param : programparams) (data fresh : list num) (width height : Z),
    ParseParams atof atoi LIBJPEG_SUPPORT argv = Parsed Param ->
    model_of_name (Model Param) = None ->
    ReadImage (InputFile Param) = Some (data, width, height) ->
    Malloc (NumSamples (image_read data width height)) = Some fresh ->
    main (Some Opt0) TvRestore atof atoi LIBJPEG_SUPPORT ReadImage Malloc
      WriteImage argv
    = (1, [ActRead (InputFile Param) true;
           ActMalloc (NumSamples (image_read data width height)) true;
           ActDenoise (ErrModel (Model Param));
           ActFree BufU; ActFree BufF]).
Proof.
  intros N E Opt0 solver atof atoi jpeg ReadImage Malloc WriteImage argv
    Param data fresh w h Hp Hm Hr Ha.
  unfold main. rewrite Hp. unfold run. rewrite Hr. cbv zeta.
  fold (image_read data w h). fold (NumSamples (image_read data w h)).
  rewrite Ha. unfold Denoise, TvRegSetNoiseModel. rewrite Hm. reflexivity.
Qed.

(** ** Options and file names in any order *)

Section OptionOrder.

Context {N : Num}.
Variable atof : string -> num.
Variable atoi : string -> Z.
Variable LIBJPEG_SUPPORT : bool.

(** A file name and an option read in either order give the same
    parameters. *)
Lemma parse_option_set_file (c : ascii) (v a : string) (P : programparams) :
  parse_option atof atoi LIBJPEG_SUPPORT c v (set_file P a)
  = match parse_option atof atoi LIBJPEG_SUPPORT c v P with
    | Parsed P' => Parsed (set_file P' a)
    | stop => stop
    end.
Proof.
  unfold parse_option.
  destruct (Ascii.eqb c "n").
  { destruct (strchr v ":") as [[name after]|].
    - cbv zeta. destruct (_ <=? _)%num; [reflexivity|].
      unfold set_file, set_Model_Sigma. cbn [InputFile].
      destruct (InputFile P); reflexivity.
    - unfold set_file, set_Model_Sigma. cbn [InputFile].
      destruct (InputFile P); reflexivity. }
  destruct (Ascii.eqb c "l").
  { cbv zeta. destruct (_ <=? _)%num; [reflexivity|].
    unfold set_file, set_Lambda. cbn [InputFile].
    destruct (InputFile P); reflexivity. }
  destruct (LIBJPEG_SUPPORT && Ascii.eqb c "q").
  { cbv zeta. destruct ((_ <=? 0)%Z || _); [reflexivity|].
    unfold set_file, set_JpegQuality. cbn [InputFile].
    destruct (InputFile P); reflexivity. }
  destruct (Ascii.eqb c "-"); [reflexivity|].
  destruct (isprint c); reflexivity.
Qed.

End OptionOrder.

(** X24.  An option with its value and a file name may come in either
    order: [-c v file] is read as [file -c v] is, for every option
    letter, every value and every file name that does not start with
    ['-']. *)
Theorem parse_args_option_file_order :
  forall (N : Num) atof atoi LIBJPEG_SUPPORT (c : ascii) (v a : string)
         (rest : list string) (P : programparams),
    c <> zero -> positional a ->
    parse_args atof atoi LIBJPEG_SUPPORT
      (String "-" (String c EmptyString) :: v :: a :: rest) P
    = parse_args atof atoi LIBJPEG_SUPPORT
        (a :: String "-" (String c EmptyString) :: v :: rest) P.
Proof.
  intros N atof atoi jpeg c v a rest P Hc Ha.
  assert (Ec : Ascii.eqb c zero = false)
    by (apply Ascii.eqb_neq; exact Hc).
  assert (Ea : Ascii.eqb (char_at a 0) "-" = false)
    by (apply Ascii.eqb_neq; exact Ha).
  cbn [parse_args]. rewrite Ea.
  change (char_at (String "-" (String c EmptyString)) 0) with "-"%char.
  change (char_at (String "-" (String c EmptyString)) 1) with c.
  change (char_at (String "-" (String c EmptyString)) 2) with zero.
  change (Ascii.eqb "-" "-") with true. cbv iota.
  rewrite Ec. change (Ascii.eqb zero zero) with true. cbn [negb].
  rewrite parse_option_set_file.
  destruct (parse_option atof atoi jpeg c v P) as [P'| |e];
    reflexivity.
Qed.

(** ** The residual of an empty image *)

(** X25.  [ComputeRmse] divides by the sample count without testing it:
    in binary64, on an image of no samples the residual is 0/0, not a
    number. *)
Theorem ComputeRmse_no_samples :
  forall f u : @image Double,
    NumSamples u = 0 ->
    PrimFloat.is_nan (@ComputeRmse Double f u) = true.
Proof.
  intros f u H. unfold ComputeRmse. rewrite H. vm_compute. reflexivity.
Qed.

(** ** Runs on concrete inputs *)

(** A 2x2 grayscale image [ex_f], a buffer [ex_u] of the same shape with
    other content, options as [TvRegNewOpt] might return them, and a
    stand-in for the solver that moves [u] halfway towards [f] and
    reports success. *)
Definition ex_f : @image Double :=
  @Build_image Double [0.25; 0.75; 0.5; 1]%float 2 2 1.
Definition ex_u : @image Double :=
  @Build_image Double [0; 0; 0; 0]%float 2 2 1.
Definition ex_opt : @tvregopt Double :=
  @Build_tvregopt Double 25%float Gaussian 1e-3%float 50 true.
Definition ex_solver (u f : list float) (w h c : Z) (o : @tvregopt Double)
  : bool * list float :=
  (true, map (fun p => (fst p + snd p) / 2)%float (combine u f)).

(** [atoi], and [atof] on a string of decimal digits. *)
Definition digit_of (c : ascii) : option Z :=
  let n := nat_of_ascii c in
  if ((48 <=? n) && (n <=? 57))%nat then Some (Z.of_nat (n - 48)) else None.
Fixpoint digits_value (s : string) (acc : Z) : Z :=
  match s with
  | EmptyString => acc
  | String c r =>
      match digit_of c with
      | Some d => digits_value r (10 * acc + d)
      | None => acc
      end
  end.
Definition ex_atoi (s : string) : Z := digits_value s 0.
Definition ex_atof (s : string) : float := float_of_Z (digits_value s 0).

Definition ex_sigma : @num Double := (10 / 255)%float.
Definition ex_lambda : @num Double := 5%float.

(** The scenario of the specification: for gaussian noise of standard
    deviation 10 on the display scale the initial lambda is about 19.8,
    and in binary64 no initial lambda is below the floor. *)
Lemma InitialLambda_scenario :
  InitialLambda Gaussian ex_sigma = 19.798021499999997%float.
Proof. vm_compute. reflexivity. Qed.

Lemma InitialLambda_double_not_below (m : noisemodel) (sigma : float) :
  PrimFloat.ltb (@InitialLambda Double m sigma) 1e-4 = false.
Proof.
  apply (@floor_lambda_not_below Double). vm_compute. reflexivity.
Qed.

(** C1, as stated, fails: [Denoise] with the name "speckle" returns
    failure and leaves in [u] what it held, which is not the content of
    [f]. *)
Lemma Denoise_speckle_no_copy :
  @Denoise Double (Some ex_opt) ex_solver ex_u ex_f "speckle" ex_sigma
    (float_of_Z (-1))
  = (false, ex_u, [ErrModel "speckle"])
  /\ Data ex_u <> Data ex_f.
Proof.
  split; [reflexivity|].
  intros H. apply (f_equal (map (PrimFloat.ltb 0%float))) in H.
  vm_compute in H. discriminate H.
Qed.

(** C1 (amended) on the name "speckle". *)
Lemma Denoise_unrecognized_model_speckle :
  exists tr : list event,
    @Denoise Double (Some ex_opt) ex_solver ex_u ex_f "speckle" ex_sigma
      (float_of_Z (-1))
    = (false, ex_u, tr)
    /\ calls tr = [].
Proof.
  apply (Denoise_unrecognized_model Double (Some ex_opt) ex_solver ex_u ex_f
           "speckle" ex_sigma (float_of_Z (-1))); discriminate.
Defined.



(** A command line with sigma alone. *)
Definition ex_args_sigma : list string := ["-nlaplace:10"; "in.bmp"].
Definition ex_params_sigma : @programparams Double :=
  @Build_programparams Double (Some "in.bmp") None 95 "laplace"
    ex_sigma (float_of_Z (-1)).


(** C3 on a laplace run over [ex_f]. *)
Lemma Denoise_tunes_five_rounds_ex :
  exists (rounds : list call) (final : call),
    @Denoise Double (Some ex_opt) ex_solver ex_u ex_f (name_of Laplace)
      ex_sigma (float_of_Z (-1))
    = (true, set_Data ex_u (call_u1 final),
       banner Laplace :: OutTuning
       :: OutTarget (@nmul Double (of_int DISPLAY_SCALING) ex_sigma)
       :: OutRule :: OutLambda (InitialLambda Laplace ex_sigma)
       :: flat_map (round_events Laplace ex_sigma ex_f ex_u) rounds
       ++ [event_of_call final;
           OutFinal (@nmul Double (of_int DISPLAY_SCALING)
                       (residual ex_f ex_u (call_u1 final)))])
    /\ List.length rounds = 5%nat
    /\ Forall (fun c => call_ok c = true /\
                        OptTol (call_opt c) = dec 1 2 /\
                        OptMaxIter (call_opt c) = 40) rounds
    /\ call_ok final = true
    /\ OptTol (call_opt final) = dec 5 4
    /\ OptMaxIter (call_opt final) = 100.
Proof.
  apply (Denoise_tunes_five_rounds Double Double_order ex_solver ex_opt
           ex_u ex_f Laplace ex_sigma (float_of_Z (-1))).
  - vm_compute. reflexivity.
  - vm_compute. reflexivity.
Defined.



(** C9 on a run with lambda given: the solver is started on the copy of
    [ex_f], which it returns as it is. *)
Lemma Denoise_given_lambda_ex :
  @Denoise Double (Some ex_opt) ex_solver ex_u ex_f (name_of Poisson)
    (float_of_Z (-1)) ex_lambda
  = (true, set_Data ex_u (Data ex_f),
     [banner Poisson;
      Restore (final_options Poisson ex_lambda) (Data ex_f) true (Data ex_f)]).
Proof.
  apply (Denoise_given_lambda Double Double_order ex_solver ex_opt ex_u ex_f
           Poisson (float_of_Z (-1)) ex_lambda eq_refl true (Data ex_f)).
  vm_compute. reflexivity.
Defined.

(** In binary64, on these inputs: the residual of [ex_f] against itself
    is zero and the residual of [ex_f] and [ex_u] is the same in both
    orders; with a solver that returns [f] itself the first round
    measures a zero residual, and every later call runs with lambda
    zero. *)
Definition ex_solver_f (u f : list float) (w h c : Z) (o : @tvregopt Double)
  : bool * list float := (true, f).

Lemma ComputeRmse_double_ex :
  @ComputeRmse Double ex_f ex_f = 0%float
  /\ @ComputeRmse Double ex_f ex_u = @ComputeRmse Double ex_u ex_f.
Proof. split; vm_compute; reflexivity. Qed.

Lemma zero_residual_double_ex :
  map (fun c => @OptLambda Double (call_opt c))
    (calls (snd (@Denoise Double (Some ex_opt) ex_solver_f ex_u ex_f
                   (name_of Gaussian) ex_sigma (float_of_Z (-1)))))
  = [19.798021499999997; 0; 0; 0; 0; 0]%float.
Proof. vm_compute. reflexivity. Qed.









(** * The added properties on concrete inputs *)

(** An image that is larger than its sample count says, and one more. *)
Definition ex_f_long : @image Double :=
  @Build_image Double [0.25; 0.75; 0.5; 1; 9]%float 2 2 1.
Definition ex_u_long : @image Double :=
  @Build_image Double [0; 0; 0; 0; 7]%float 2 2 1.
Definition ex_u_ones : @image Double :=
  @Build_image Double [1; 1; 1; 1]%float 2 2 1.

(** X1 on buffers that differ after their fourth sample. *)
Lemma ComputeRmse_first_samples_ex :
  @ComputeRmse Double ex_f ex_u = @ComputeRmse Double ex_f_long ex_u_long.
Proof.
  apply (ComputeRmse_first_samples Double ex_f ex_f_long ex_u ex_u_long);
    reflexivity.
Defined.







(** X12 on [-l 5] followed by a file name. *)
Lemma parse_args_app_ex :
  @parse_args Double ex_atof ex_atoi false (["-l"; "5"] ++ ["in.bmp"])
    default_params
  = @parse_args Double ex_atof ex_atoi false ["in.bmp"]
      (set_Lambda default_params ex_lambda).
Proof.
  apply (parse_args_app Double ex_atof ex_atoi false ["-l"; "5"] ["in.bmp"]
           default_params (set_Lambda default_params ex_lambda)).
  vm_compute. reflexivity.
Defined.

(** X13 on [-l5]. *)
Lemma parse_args_attached_value_ex :
  @parse_args Double ex_atof ex_atoi false ["-l5"; "in.bmp"] default_params
  = @parse_args Double ex_atof ex_atoi false ["-l"; "5"; "in.bmp"]
      default_params.
Proof.
  apply (parse_args_attached_value Double ex_atof ex_atoi false
           "l" "5" EmptyString ["in.bmp"] default_params); discriminate.
Defined.

(** X14 on three names after the input file. *)
Definition ex_params_in : @programparams Double :=
  set_file default_params "in.bmp".

Lemma parse_args_file_names_ex :
  exists P' : @programparams Double,
    @parse_args Double ex_atof ex_atoi false ["a.bmp"; "b.bmp"; "c.bmp"]
      ex_params_in = Parsed P'
    /\ InputFile P' = Some "in.bmp"
    /\ OutputFile P' = Some (last ["a.bmp"; "b.bmp"; "c.bmp"] "in.bmp")
    /\ JpegQuality P' = JpegQuality ex_params_in
    /\ Model P' = Model ex_params_in
    /\ Sigma P' = Sigma ex_params_in
    /\ Lambda P' = Lambda ex_params_in.
Proof.
  apply (parse_args_file_names Double ex_atof ex_atoi false
           ["a.bmp"; "b.bmp"; "c.bmp"] ex_params_in "in.bmp").
  - reflexivity.
  - repeat constructor; intros H; vm_compute in H; discriminate H.
Defined.

(** X15 on the command line with sigma alone. *)
Lemma ParseParams_parsed_ex :
  (exists a, InputFile ex_params_sigma = Some a
             /\ In a (tl ("tvdenoise" :: ex_args_sigma)) /\ positional a)
  /\ 1 <= JpegQuality ex_params_sigma <= 100
  /\ (false = false -> JpegQuality ex_params_sigma = 95).
Proof.
  apply (ParseParams_parsed Double ex_atof ex_atoi false
           ("tvdenoise" :: ex_args_sigma) ex_params_sigma).
  vm_compute. reflexivity.
Defined.




(** A run of [main]: a gray image of two pixels in three planes, a
    [Malloc] that never fails and hands out zeros, a [WriteImage] that
    needs a file name. *)
Definition ex_planes : list float := [0.25; 0.75; 0.25; 0.75; 0.25; 0.75]%float.
Definition ex_ReadImage (file : option string)
  : option (list float * Z * Z) :=
  match file with Some _ => Some (ex_planes, 2, 1) | None => None end.
Definition ex_Malloc (n : Z) : option (list float) :=
  Some (repeat 0%float (Z.to_nat n)).
Definition ex_Malloc_ones (n : Z) : option (list float) :=
  Some (repeat 1%float (Z.to_nat n)).
Definition ex_WriteImage (data : list float) (width height : Z)
    (file : option string) (grayscale : bool) (quality : Z) : bool :=
  match file with Some _ => true | None => false end.
Definition ex_main (argv : list string) : Z * list (@action Double) :=
  @main Double Double_ne (Some ex_opt) ex_solver ex_atof ex_atoi false
    ex_ReadImage ex_Malloc ex_WriteImage argv.

Definition ex_argv_lambda : list string :=
  ["tvdenoise"; "-l"; "5"; "in.bmp"; "out.bmp"].
Definition ex_params_lambda : @programparams Double :=
  @Build_programparams Double (Some "in.bmp") (Some "out.bmp") 95 "gaussian"
    (float_of_Z (-1)) ex_lambda.

Lemma ex_main_writes :
  In (@ActWrite Double [0.25; 0.75]%float 2 1 (Some "out.bmp") true 95 true)
    (snd (ex_main ex_argv_lambda)).
Proof.
  vm_compute. repeat first [ left; reflexivity | right ].
Qed.

(** X19 on that run. *)
Lemma main_written_ex :
  (count is_write (snd (ex_main ex_argv_lambda)) = 1)%nat
  /\ exists (Param : programparams) (data fresh : list float)
            (u' : @image Double) (evs : list event),
       @ParseParams Double ex_atof ex_atoi false ex_argv_lambda
       = Parsed Param
       /\ ex_ReadImage (InputFile Param) = Some (data, 2, 1)
       /\ ex_Malloc (NumSamples (@image_read Double Double_ne data 2 1))
          = Some fresh
       /\ @Denoise Double (Some ex_opt) ex_solver
            (set_Data (@image_read Double Double_ne data 2 1) fresh)
            (@image_read Double Double_ne data 2 1)
            (Model Param) (Sigma Param) (Lambda Param)
          = (true, u', evs)
       /\ [0.25; 0.75]%float = Data u'
       /\ Some "out.bmp" = OutputFile Param
       /\ true = @IsGrayscale Double Double_ne
                   (@image_read Double Double_ne data 2 1)
       /\ 95 = JPEGQUALITY
       /\ true = ex_WriteImage [0.25; 0.75]%float 2 1 (Some "out.bmp")
                   true 95.
Proof.
  apply (@main_written Double Double_ne (Some ex_opt) ex_solver ex_atof
           ex_atoi false ex_ReadImage ex_WriteImage ex_Malloc
           ex_argv_lambda [0.25; 0.75]%float 2 1 (Some "out.bmp") true 95
           true).
  exact ex_main_writes.
Defined.

(** X21 on two buffers [u], of zeros and of ones. *)
Lemma Denoise_ignores_u_ex :
  fst (fst (@Denoise Double (Some ex_opt) ex_solver ex_u ex_f "gaussian"
              ex_sigma ex_lambda))
  = fst (fst (@Denoise Double (Some ex_opt) ex_solver ex_u_ones ex_f
                "gaussian" ex_sigma ex_lambda))
  /\ snd (@Denoise Double (Some ex_opt) ex_solver ex_u ex_f "gaussian"
            ex_sigma ex_lambda)
     = snd (@Denoise Double (Some ex_opt) ex_solver ex_u_ones ex_f
              "gaussian" ex_sigma ex_lambda)
  /\ (Some ex_opt <> None -> @model_of_name "gaussian" <> None ->
      snd (fst (@Denoise Double (Some ex_opt) ex_solver ex_u ex_f "gaussian"
                  ex_sigma ex_lambda))
      = snd (fst (@Denoise Double (Some ex_opt) ex_solver ex_u_ones ex_f
                    "gaussian" ex_sigma ex_lambda))).
Proof.
  apply (Denoise_ignores_u Double (Some ex_opt) ex_solver ex_u ex_u_ones
           ex_f "gaussian" ex_sigma ex_lambda); reflexivity.
Defined.

(** X22 on a [Malloc] that hands out zeros and one that hands out
    ones. *)
Lemma main_fresh_buffer_ex :
  @main Double Double_ne (Some ex_opt) ex_solver ex_atof ex_atoi false
    ex_ReadImage ex_Malloc ex_WriteImage ex_argv_lambda
  = @main Double Double_ne (Some ex_opt) ex_solver ex_atof ex_atoi false
      ex_ReadImage ex_Malloc_ones ex_WriteImage ex_argv_lambda.
Proof.
  apply (main_fresh_buffer Double Double_ne (Some ex_opt) ex_solver ex_atof
           ex_atoi false ex_ReadImage ex_WriteImage ex_Malloc ex_Malloc_ones
           ex_argv_lambda).
  - intros n a H. injection H as <-. apply repeat_length.
  - intros n a H. injection H as <-. apply repeat_length.
  - intros n. split; discriminate.
Defined.

(** X23 on the model name "speckle". *)
Definition ex_argv_speckle : list string :=
  ["tvdenoise"; "-n"; "speckle:10"; "in.bmp"; "out.bmp"].
Definition ex_params_speckle : @programparams Double :=
  @Build_programparams Double (Some "in.bmp") (Some "out.bmp") 95 "speckle"
    ex_sigma (float_of_Z (-1)).

Lemma main_unrecognized_model_ex :
  ex_main ex_argv_speckle
  = (1, [ActRead (InputFile ex_params_speckle) true;
         ActMalloc (NumSamples (@image_read Double Double_ne ex_planes 2 1))
           true;
         ActDenoise (ErrModel (Model ex_params_speckle));
         ActFree BufU; ActFree BufF]).
Proof.
  apply (main_unrecognized_model Double Double_ne ex_opt ex_solver ex_atof
           ex_atoi false ex_ReadImage ex_Malloc ex_WriteImage ex_argv_speckle
           ex_params_speckle ex_planes [0; 0]%float 2 1).
  - vm_compute. reflexivity.
  - reflexivity.
  - reflexivity.
  - vm_compute. reflexivity.
Defined.
(** X24 on [-l 5] and a file name. *)
Lemma parse_args_option_file_order_ex :
  @parse_args Double ex_atof ex_atoi false ["-l"; "5"; "in.bmp"; "out.bmp"]
    default_params
  = @parse_args Double ex_atof ex_atoi false ["in.bmp"; "-l"; "5"; "out.bmp"]
      default_params.
Proof.
  apply (parse_args_option_file_order Double ex_atof ex_atoi false
           "l" "5" "in.bmp" ["out.bmp"] default_params).
  - discriminate.
  - intros H. vm_compute in H. discriminate H.
Defined.

(** X25 on an image of no pixels. *)
Definition ex_empty : @image Double := @Build_image Double [] 0 0 1.

Lemma ComputeRmse_no_samples_ex :
  PrimFloat.is_nan (@ComputeRmse Double ex_empty ex_empty) = true.
Proof.
  apply (ComputeRmse_no_samples ex_empty ex_empty). reflexivity.
Defined.
